(** * Telemetry read API: validators, access planner, response shaper, router

    Shallow embedding of [lambda_function.py] and of its near-duplicate
    [main.py].  A Python [str] is a Rocq [string] whose characters are the
    code points below 256; comparison of strings is comparison of code
    points, as in Python.  [None] is [option]'s [None]. *)

From Stdlib Require Import Bool List String Ascii ZArith NArith Lia.
From Stdlib Require Import Sorting.Sorted Sorting.Permutation.
Import ListNotations.
Local Open Scope string_scope.
Local Open Scope Z_scope.
Set Warnings "-register-all".

(** ** Exceptions

    A Python call either returns or raises; the only thing the code ever
    reads from an exception is [str(e)]. *)

Inductive result (A : Type) : Type :=
| Ok (a : A)
| Raise (msg : string).
Arguments Ok {A} a.
Arguments Raise {A} msg.

Definition bind {A B : Type} (r : result A) (k : A -> result B) : result B :=
  match r with
  | Ok a => k a
  | Raise msg => Raise msg
  end.

Notation "x <- r ;; k" := (bind r (fun x => k))
  (at level 61, r at next level, right associativity).

(** [try: body  except Exception as e: raise Exception(f"<prefix>{str(e)}")] *)
Definition reraise {A : Type} (prefix : string) (body : result A) : result A :=
  match body with
  | Ok a => Ok a
  | Raise msg => Raise (prefix ++ msg)
  end.

Fixpoint mapM {A B : Type} (f : A -> result B) (l : list A) : result (list B) :=
  match l with
  | [] => Ok []
  | x :: l' => y <- f x ;; ys <- mapM f l' ;; Ok (y :: ys)
  end.

(** ** Python [str] operations used by the validators *)

Definition code (c : ascii) : N := N_of_ascii c.

(** [str.isspace] on one character (code points below 256). *)
Definition isspace (c : ascii) : bool :=
  let n := code c in
  ((9 <=? n) && (n <=? 13) || (28 <=? n) && (n <=? 32)
   || (n =? 133) || (n =? 160))%N.

(** The decimal digits [0]..[9], the only characters [int] reads as digits. *)
Definition isdecimal (c : ascii) : bool :=
  let n := code c in ((48 <=? n) && (n <=? 57))%N.

(** [str.isdigit] on one character: the decimal digits and the superscript
    digits U+00B2, U+00B3, U+00B9. *)
Definition isdigit_char (c : ascii) : bool :=
  let n := code c in
  (isdecimal c || (n =? 178) || (n =? 179) || (n =? 185))%N.

Fixpoint forall_chars (p : ascii -> bool) (s : string) : bool :=
  match s with
  | EmptyString => true
  | String c s' => p c && forall_chars p s'
  end.

(** [s.isdigit()]: false on the empty string. *)
Definition isdigit (s : string) : bool :=
  match s with
  | EmptyString => false
  | _ => forall_chars isdigit_char s
  end.

(** [s.count(c)] for a one-character [c]. *)
Fixpoint str_count (c : ascii) (s : string) : nat :=
  match s with
  | EmptyString => O
  | String a s' => if Ascii.eqb a c then S (str_count c s') else str_count c s'
  end.

(** [s.split(c)] for a one-character separator. *)
Fixpoint str_split (c : ascii) (s : string) : list string :=
  match s with
  | EmptyString => [EmptyString]
  | String a s' =>
      if Ascii.eqb a c then EmptyString :: str_split c s'
      else match str_split c s' with
           | [] => [String a EmptyString]
           | p :: ps => String a p :: ps
           end
  end.

Fixpoint rev_string (s : string) : string :=
  match s with
  | EmptyString => EmptyString
  | String a s' => rev_string s' ++ String a EmptyString
  end.

Fixpoint lstrip (s : string) : string :=
  match s with
  | EmptyString => EmptyString
  | String a s' => if isspace a then lstrip s' else s
  end.

(** [s.strip()] *)
Definition strip (s : string) : string :=
  rev_string (lstrip (rev_string (lstrip s))).

(** [s.endswith(c)] for a one-character suffix. *)
Fixpoint endswith (c : ascii) (s : string) : bool :=
  match s with
  | EmptyString => false
  | String a EmptyString => Ascii.eqb a c
  | String _ s' => endswith c s'
  end.

(** [s.replace(c, new)] for a one-character [c]: every occurrence. *)
Fixpoint replace (c : ascii) (new : string) (s : string) : string :=
  match s with
  | EmptyString => EmptyString
  | String a s' =>
      if Ascii.eqb a c then new ++ replace c new s'
      else String a (replace c new s')
  end.

(** [str.lower] on one character: [A]..[Z] and the upper-case letters of
    the Latin-1 block (U+00C0..U+00DE without the multiplication sign). *)
Definition lower_char (c : ascii) : ascii :=
  let n := code c in
  if ((65 <=? n) && (n <=? 90)
      || (192 <=? n) && (n <=? 222) && negb (n =? 215))%N
  then ascii_of_N (n + 32) else c.

Fixpoint lower (s : string) : string :=
  match s with
  | EmptyString => EmptyString
  | String a s' => String (lower_char a) (lower s')
  end.

Definition digit_value (c : ascii) : Z := Z.of_N (code c) - 48.

(** The digit part of an [int] literal: decimal digits, single underscores
    allowed between two digits only. *)
Fixpoint int_digits (after_digit : bool) (acc : Z) (s : string) : option Z :=
  match s with
  | EmptyString => if after_digit then Some acc else None
  | String c s' =>
      if isdecimal c then int_digits true (10 * acc + digit_value c) s'
      else if Ascii.eqb c "_" then
             if after_digit then int_digits false acc s' else None
           else None
  end.

(** [int(s)]: surrounding white space is dropped, one sign is allowed;
    [None] stands for [ValueError]. *)
Definition int (s : string) : option Z :=
  match strip s with
  | EmptyString => None
  | String c d =>
      if Ascii.eqb c "+" then int_digits false 0 d
      else if Ascii.eqb c "-" then option_map Z.opp (int_digits false 0 d)
      else int_digits false 0 (String c d)
  end.

(** Truth value of an optional string in a condition: [None] and [""] are
    false. *)
Definition truthy (x : option string) : bool :=
  match x with
  | Some s => negb (String.eqb s "")
  | None => false
  end.

(** ** [datetime.fromisoformat]

    The parser belongs to the standard library, not to the repository.
    The validators below take it as a parameter; [Datetime.fromisoformat]
    is the instance used to evaluate them. *)

Module Datetime.

Definition two_digits (s : string) : option (Z * string) :=
  match s with
  | String a (String b rest) =>
      if isdecimal a && isdecimal b
      then Some (10 * digit_value a + digit_value b, rest)
      else None
  | _ => None
  end.

(** [.fff] or [.ffffff], in microseconds. *)
Definition fraction (s : string) : option Z :=
  if forall_chars isdecimal s then
    match String.length s with
    | 3%nat => option_map (Z.mul 1000) (int_digits false 0 s)
    | 6%nat => int_digits false 0 s
    | _ => None
    end
  else None.

(** [HH[:MM[:SS[.fff[fff]]]]] *)
Definition parse_hh_mm_ss_ff (tstr : string) : option (Z * Z * Z * Z) :=
  match two_digits tstr with
  | Some (hh, EmptyString) => Some (hh, 0, 0, 0)
  | Some (hh, String ":" r1) =>
      match two_digits r1 with
      | Some (mm, EmptyString) => Some (hh, mm, 0, 0)
      | Some (mm, String ":" r2) =>
          match two_digits r2 with
          | Some (ss, EmptyString) => Some (hh, mm, ss, 0)
          | Some (ss, String "." f) =>
              option_map (fun us => (hh, mm, ss, us)) (fraction f)
          | _ => None
          end
      | _ => None
      end
  | _ => None
  end.

(** The text before and after the first occurrence of [c]. *)
Fixpoint cut (c : ascii) (s : string) : option (string * string) :=
  match s with
  | EmptyString => None
  | String a s' =>
      if Ascii.eqb a c then Some (EmptyString, s')
      else match cut c s' with
           | Some (before, after) => Some (String a before, after)
           | None => None
           end
  end.

Definition valid_offset (tzstr : string) : bool :=
  match String.length tzstr with
  | 5%nat | 8%nat | 15%nat =>
      match parse_hh_mm_ss_ff tzstr with
      | Some (hh, mm, ss, us) =>
          ((hh * 3600 + mm * 60 + ss) * 1000000 + us <? 86400000000)
      | None => false
      end
  | _ => false
  end.

Definition valid_time (hh mm ss : Z) : bool :=
  (hh <? 24) && (mm <? 60) && (ss <? 60).

Definition parse_isoformat_time (tstr : string) : bool :=
  let tz := match cut "-" tstr with
            | Some p => Some p
            | None => cut "+" tstr
            end in
  match tz with
  | Some (timestr, tzstr) =>
      match parse_hh_mm_ss_ff timestr with
      | Some (hh, mm, ss, _) => valid_time hh mm ss && valid_offset tzstr
      | None => false
      end
  | None =>
      match parse_hh_mm_ss_ff tstr with
      | Some (hh, mm, ss, _) => valid_time hh mm ss
      | None => false
      end
  end.

Definition is_leap (year : Z) : bool :=
  (year mod 4 =? 0) && (negb (year mod 100 =? 0) || (year mod 400 =? 0)).

Definition days_in_month (year month : Z) : Z :=
  if month =? 2 then (if is_leap year then 29 else 28)
  else if (month =? 4) || (month =? 6) || (month =? 9) || (month =? 11)
       then 30 else 31.

Definition valid_date (year month day : Z) : bool :=
  (1 <=? year) && (1 <=? month) && (month <=? 12)
  && (1 <=? day) && (day <=? days_in_month year month).

(** Modelled from the spec: [datetime.fromisoformat], which the repository
    calls and does not contain.  The spec asks for "a valid calendar
    date-time" and the rejection of "invalid months/days/hours, non-ISO
    separators, missing offset"; the model is the grammar
    [YYYY-MM-DD[*HH[:MM[:SS[.fff[fff]]]][+HH:MM[:SS[.ffffff]]]]] with the
    calendar checks of the [datetime] constructor.  [true] means that the
    call returns, [false] that it raises [ValueError]. *)
Definition fromisoformat (date_string : string) : bool :=
  match two_digits date_string with
  | Some (cc, r0) =>
      match two_digits r0 with
      | Some (yy, String "-" r1) =>
          match two_digits r1 with
          | Some (month, String "-" r2) =>
              match two_digits r2 with
              | Some (day, EmptyString) => valid_date (100 * cc + yy) month day
              | Some (day, String _ tstr) =>
                  valid_date (100 * cc + yy) month day
                  && parse_isoformat_time tstr
              | None => false
              end
          | _ => false
          end
      | _ => false
      end
  | None => false
  end.

End Datetime.

(** ** Validators *)

(** [validate_device_id], the same text in both files. *)
Definition validate_device_id (device_id : string) : bool :=
  if negb (Nat.eqb (str_count "_" device_id) 1) then false
  else
    match str_split "_" device_id with
    | [device_type; device_num] =>
        match int device_num with
        | Some num => Nat.ltb 0 (String.length device_type) && (num >? 0)
        | None => false
        end
    | _ => false
    end.

(** ** Dictionaries

    A [dict] is an association list in insertion order, its keys distinct. *)

Fixpoint get {A : Type} (key : string) (d : list (string * A)) : option A :=
  match d with
  | [] => None
  | (k, v) :: d' => if String.eqb k key then Some v else get key d'
  end.

(** [d.get(key)] where a stored value may itself be [None]. *)
Definition get_opt (key : string) (d : list (string * option string))
  : option string :=
  match get key d with
  | Some v => v
  | None => None
  end.

Fixpoint set_key {A : Type} (key : string) (v : A) (d : list (string * A))
  : list (string * A) :=
  match d with
  | [] => [(key, v)]
  | (k, w) :: d' =>
      if String.eqb k key then (k, v) :: d' else (k, w) :: set_key key v d'
  end.

(** [d.update(other)] *)
Definition update {A : Type} (d other : list (string * A))
  : list (string * A) :=
  fold_left (fun acc kv => set_key (fst kv) (snd kv) acc) other d.

(** ** [set] and [sorted] *)

Fixpoint insert {A : Type} (le : A -> A -> bool) (x : A) (l : list A)
  : list A :=
  match l with
  | [] => [x]
  | y :: l' => if le x y then x :: l else y :: insert le x l'
  end.

(** A stable sort: an element goes in front of the elements to its right
    that are not smaller. *)
Definition sort_by {A : Type} (le : A -> A -> bool) (l : list A) : list A :=
  fold_right (insert le) [] l.

(** [sorted(xs)] on strings. *)
Definition sorted (xs : list string) : list string := sort_by String.leb xs.

(** [set(xs)]: the distinct elements; the code only ever sorts the set, so
    the order in which a set is iterated plays no part. *)
Definition set (xs : list string) : list string := nodup string_dec xs.

(** ** Values of a response body *)

(** A [Decimal] as coefficient and exponent. *)
Definition Decimal : Type := (Z * Z)%type.

(** [float(d)], kept symbolic. *)
Inductive pyfloat : Type :=
| float (d : Decimal).

Inductive value : Type :=
| VNone
| VInt (n : Z)
| VDecimal (d : Decimal)
| VFloat (f : pyfloat)
| VStr (s : string)
| VList (items : list value)
| VDict (entries : list (string * value)).

(** ** The store

    The table is an external collaborator of the code: records keyed by
    device and timestamp, with a secondary index keyed by room and
    timestamp. *)

Record TelemetryRecord : Type := mkRecord {
  rec_device_id : string;
  rec_room_id : string;
  rec_timestamp : string;
  rec_temperature : option Decimal;
  rec_device_status : string
}.

(** An item as a call returns it: each attribute present or, after a
    projection, absent.  A present temperature may be null. *)
Record Item : Type := mkItem {
  item_device_id : option string;
  item_room_id : option string;
  item_timestamp : option string;
  item_temperature : option (option Decimal);
  item_device_status : option string
}.

(** The table: its records and, when the service is failing, the cause that
    every call raises. *)
Record Table : Type := mkTable {
  rows : list TelemetryRecord;
  outage : option string
}.

(** [Key(name)] and [Attr(name)] of [boto3.dynamodb.conditions]. *)
Inductive operand : Type :=
| Key (name : string)
| Attr (name : string).

Definition operand_name (a : operand) : string :=
  match a with
  | Key name => name
  | Attr name => name
  end.

(** Conditions as the builders compose them; [c1 & c2] is [And c1 c2]. *)
Inductive condition : Type :=
| Eq (a : operand) (v : option string)
| Gte (a : operand) (v : option string)
| Lte (a : operand) (v : option string)
| Between (a : operand) (low high : option string)
| And (c1 c2 : condition).

Record QueryParams : Type := mkQuery {
  IndexName : option string;
  KeyConditionExpression : condition;
  FilterExpression : option condition;
  ProjectionExpression : option string
}.

Definition GSI_NAME : string := "room_id-timestamp-index".

(** The string attributes of a record, by name. *)
Definition attribute (name : string) (r : TelemetryRecord) : option string :=
  if String.eqb name "device_id" then Some (rec_device_id r)
  else if String.eqb name "room_id" then Some (rec_room_id r)
  else if String.eqb name "timestamp" then Some (rec_timestamp r)
  else if String.eqb name "device_status" then Some (rec_device_status r)
  else None.

(** A comparison with [None], or on an attribute that is not a string,
    matches nothing; the bounds of every range are inclusive. *)
Fixpoint holds (c : condition) (r : TelemetryRecord) : bool :=
  match c with
  | Eq a (Some v) =>
      match attribute (operand_name a) r with
      | Some x => String.eqb x v
      | None => false
      end
  | Gte a (Some v) =>
      match attribute (operand_name a) r with
      | Some x => String.leb v x
      | None => false
      end
  | Lte a (Some v) =>
      match attribute (operand_name a) r with
      | Some x => String.leb x v
      | None => false
      end
  | Between a (Some low) (Some high) =>
      match attribute (operand_name a) r with
      | Some x => String.leb low x && String.leb x high
      | None => false
      end
  | And c1 c2 => holds c1 r && holds c2 r
  | _ => false
  end.

(** Partition key and sort key of the table and of its secondary index. *)
Definition key_schema (index : option string) : option (string * string) :=
  match index with
  | None => Some ("device_id", "timestamp")
  | Some name =>
      if String.eqb name GSI_NAME then Some ("room_id", "timestamp") else None
  end.

Definition sort_key_range (sk : string) (c : condition) : bool :=
  match c with
  | Gte (Key name) (Some _) => String.eqb name sk
  | Lte (Key name) (Some _) => String.eqb name sk
  | Between (Key name) (Some _) (Some _) => String.eqb name sk
  | _ => false
  end.

(** A key condition is an equality on the partition key, alone or with one
    range on the sort key. *)
Definition key_condition_ok (pk sk : string) (c : condition) : bool :=
  match c with
  | Eq (Key name) (Some _) => String.eqb name pk
  | And (Eq (Key name) (Some _)) range =>
      String.eqb name pk && sort_key_range sk range
  | _ => false
  end.

Definition full_item (r : TelemetryRecord) : Item :=
  mkItem (Some (rec_device_id r)) (Some (rec_room_id r))
         (Some (rec_timestamp r)) (Some (rec_temperature r))
         (Some (rec_device_status r)).

Definition keep (name attr : string) {A : Type} (x : A) : option A :=
  if String.eqb name attr then Some x else None.

Definition project (projection : option string) (r : TelemetryRecord) : Item :=
  match projection with
  | None => full_item r
  | Some name =>
      mkItem (keep name "device_id" (rec_device_id r))
             (keep name "room_id" (rec_room_id r))
             (keep name "timestamp" (rec_timestamp r))
             (keep name "temperature" (rec_temperature r))
             (keep name "device_status" (rec_device_status r))
  end.

Definition by_timestamp (r1 r2 : TelemetryRecord) : bool :=
  String.leb (rec_timestamp r1) (rec_timestamp r2).

Definition passes (f : option condition) (r : TelemetryRecord) : bool :=
  match f with
  | Some c => holds c r
  | None => true
  end.

(** Modelled from the spec: [table.query] of the store client, which the
    repository calls and does not contain; the spec describes "query by
    partition key with optional sort-key range, optional secondary index,
    optional attribute projection, optional post-filter predicate" and a
    failure that "surfaces as a single opaque failure".  The records of the
    partition within the sort-key range come in sort-key order, ties in the
    order of the table, then the post-filter applies, then the projection.
    The result is the [Items] of the response, which holds the whole
    selection: the code reads one response and leaves pagination to the
    store. *)
Definition query (table : Table) (params : QueryParams) : result (list Item) :=
  match outage table with
  | Some cause => Raise cause
  | None =>
      match key_schema (IndexName params) with
      | None => Raise "The table does not have the specified index"
      | Some (pk, sk) =>
          if key_condition_ok pk sk (KeyConditionExpression params) then
            Ok (map (project (ProjectionExpression params))
                  (filter (passes (FilterExpression params))
                     (sort_by by_timestamp
                        (filter (holds (KeyConditionExpression params))
                           (rows table)))))
          else Raise "Query condition missed key schema element"
      end
  end.

(** Modelled from the spec: [table.scan] of the store client, the "full
    scan" of the spec, with an optional projection. *)
Definition scan (table : Table) (projection : option string)
  : result (list Item) :=
  match outage table with
  | Some cause => Raise cause
  | None => Ok (map (project projection) (rows table))
  end.

(** [item[name]] for an identifier attribute; [KeyError] when absent. *)
Definition getitem (name : string) (item : Item) : result string :=
  let found :=
    if String.eqb name "device_id" then item_device_id item
    else if String.eqb name "room_id" then item_room_id item
    else if String.eqb name "timestamp" then item_timestamp item
    else if String.eqb name "device_status" then item_device_status item
    else None in
  match found with
  | Some s => Ok s
  | None => Raise ("'" ++ name ++ "'")
  end.

(** ** Access planner

    The functions below have the same text in both files.  Each one is cut
    in two: [<name>_request] builds the keyword arguments and [<name>] makes
    the call inside the function's [try]. *)

Definition query_all_devices (table : Table) : result (list Item) :=
  reraise "Database query failed: " (scan table None).

Definition query_device_by_id_request (device_id start_time end_time
    status : option string) : QueryParams :=
  let key_condition := Eq (Key "device_id") device_id in
  let key_condition :=
    if truthy start_time && truthy end_time then
      And key_condition (Between (Key "timestamp") start_time end_time)
    else if truthy start_time then
      And key_condition (Gte (Key "timestamp") start_time)
    else if truthy end_time then
      And key_condition (Lte (Key "timestamp") end_time)
    else key_condition in
  mkQuery None key_condition
    (if truthy status then Some (Eq (Attr "device_status") status) else None)
    None.

Definition query_device_by_id (table : Table) (device_id start_time end_time
    status : option string) : result (list Item) :=
  reraise "Device query failed: "
    (query table
       (query_device_by_id_request device_id start_time end_time status)).

Definition query_room_by_id_request (room_id start_time end_time
    : option string) : QueryParams :=
  let key_condition := Eq (Key "room_id") room_id in
  let key_condition :=
    if truthy start_time && truthy end_time then
      And key_condition (Between (Key "timestamp") start_time end_time)
    else if truthy start_time then
      And key_condition (Gte (Key "timestamp") start_time)
    else if truthy end_time then
      And key_condition (Lte (Key "timestamp") end_time)
    else key_condition in
  mkQuery (Some GSI_NAME) key_condition None None.

Definition query_room_by_id (table : Table) (room_id start_time end_time
    : option string) : result (list Item) :=
  reraise "Room query failed: "
    (query table (query_room_by_id_request room_id start_time end_time)).

(** [filter_expressions[0]] alone, or [filter_expressions[0] &
    filter_expressions[1]]. *)
Definition combine_filters (filter_expressions : list condition)
  : option condition :=
  match filter_expressions with
  | [] => None
  | [f0] => Some f0
  | f0 :: f1 :: _ => Some (And f0 f1)
  end.

Definition query_room_device_specific_request (room_id device_id start_time
    end_time status : option string) : QueryParams :=
  let key_condition := Eq (Key "room_id") room_id in
  let key_condition :=
    if truthy start_time && truthy end_time then
      And key_condition (Between (Key "timestamp") start_time end_time)
    else if truthy start_time then
      And key_condition (Gte (Key "timestamp") start_time)
    else if truthy end_time then
      And key_condition (Lte (Key "timestamp") end_time)
    else key_condition in
  let filter_expressions := [Eq (Attr "device_id") device_id] in
  let filter_expressions :=
    if truthy status
    then (filter_expressions ++ [Eq (Attr "device_status") status])%list
    else filter_expressions in
  mkQuery (Some GSI_NAME) key_condition (combine_filters filter_expressions)
    None.

Definition query_room_device_specific (table : Table) (room_id device_id
    start_time end_time status : option string) : result (list Item) :=
  reraise "Room-device query failed: "
    (query table
       (query_room_device_specific_request room_id device_id start_time
          end_time status)).

Definition get_unique_rooms (table : Table) : result (list string) :=
  reraise "Room scan failed: "
    (Items <- scan table (Some "room_id") ;;
     rooms <- mapM (getitem "room_id") Items ;;
     Ok (sorted (set rooms))).

Definition get_unique_devices (table : Table) : result (list string) :=
  reraise "Device scan failed: "
    (Items <- scan table (Some "device_id") ;;
     devices <- mapM (getitem "device_id") Items ;;
     Ok (sorted (set devices))).

Definition get_devices_in_room_request (room_id : option string)
  : QueryParams :=
  mkQuery (Some GSI_NAME) (Eq (Key "room_id") room_id) None
    (Some "device_id").

(** The result is a list of one-entry objects [{'device_id': device}]. *)
Definition get_devices_in_room (table : Table) (room_id : option string)
  : result (list value) :=
  reraise "Room devices query failed: "
    (Items <- query table (get_devices_in_room_request room_id) ;;
     devices <- mapM (getitem "device_id") Items ;;
     Ok (map (fun device => VDict [("device_id", VStr device)])
           (sorted (set devices)))).

(** ** Parameter pipeline *)

Record Event : Type := mkEvent {
  httpMethod : option string;
  resource : option string;
  pathParameters : option (list (string * option string));
  queryStringParameters : option (list (string * option string))
}.

(** [event.get('queryStringParameters') or {}] *)
Definition extract_query_params (event : Event)
  : list (string * option string) :=
  match queryStringParameters event with
  | Some d => d
  | None => []
  end.

Definition extract_path_params (event : Event)
  : list (string * option string) :=
  match pathParameters event with
  | Some d => d
  | None => []
  end.

Definition validate_params (params : list (string * option string))
    (validators : list (string * (string -> bool))) : bool * list string :=
  let errors :=
    fold_left
      (fun errors entry =>
         match get (fst entry) validators, snd entry with
         | Some validator, Some value =>
             if negb (validator value)
             then (errors
                   ++ [("Invalid " ++ fst entry ++ ": " ++ value)%string])%list
             else errors
         | _, _ => errors
         end)
      params [] in
  (Nat.eqb (List.length errors) 0, errors).

(** ** Response shaper *)

Fixpoint decimal_to_float (obj : value) : value :=
  match obj with
  | VDecimal d => VFloat (float d)
  | VDict entries =>
      VDict (map (fun kv : string * value =>
                    let (k, v) := kv in (k, decimal_to_float v))
               entries)
  | VList items => VList (map decimal_to_float items)
  | _ => obj
  end.

(** The [body] of a response is the document given to [json.dumps]. *)
Record Response : Type := mkResponse {
  statusCode : Z;
  headers : list (string * string);
  body : value
}.

Definition create_response (status_code : Z) (body : value)
    (headers : option (list (string * string))) : Response :=
  let default_headers :=
    [("Content-Type", "application/json");
     ("Access-Control-Allow-Origin", "*");
     ("Access-Control-Allow-Methods", "GET, POST, PUT, DELETE, OPTIONS");
     ("Access-Control-Allow-Headers", "Content-Type, Authorization")] in
  let default_headers :=
    match headers with
    | Some (h :: hs) => update default_headers (h :: hs)
    | _ => default_headers
    end in
  mkResponse status_code default_headers (decimal_to_float body).

Definition create_error_response (status_code : Z) (message : string)
    (errors : option (list string)) : Response :=
  let error_body := [("error", VStr message)] in
  let error_body :=
    match errors with
    | Some (e :: es) =>
        (error_body ++ [("details", VList (map VStr (e :: es)))])%list
    | _ => error_body
    end in
  create_response status_code (VDict error_body) None.

(** An item as a JSON object: the attributes that are present. *)
Definition entry {A : Type} (name : string) (f : A -> value) (x : option A)
  : list (string * value) :=
  match x with
  | Some a => [(name, f a)]
  | None => []
  end.

Definition value_of_item (item : Item) : value :=
  VDict (entry "device_id" VStr (item_device_id item)
         ++ entry "room_id" VStr (item_room_id item)
         ++ entry "timestamp" VStr (item_timestamp item)
         ++ entry "temperature"
              (fun t => match t with Some d => VDecimal d | None => VNone end)
              (item_temperature item)
         ++ entry "device_status" VStr (item_device_status item))%list.

Definition value_of_items (data : list Item) : value :=
  VList (map value_of_item data).

Definition value_of_strings (xs : list string) : value :=
  VList (map VStr xs).

(** A path parameter as it is echoed in a body. *)
Definition value_of_param (x : option string) : value :=
  match x with
  | Some s => VStr s
  | None => VNone
  end.

(** [len(xs)] as a value. *)
Definition len {A : Type} (xs : list A) : value :=
  VInt (Z.of_nat (List.length xs)).

Definition is_not_None {A : Type} (x : option A) : bool :=
  match x with
  | Some _ => true
  | None => false
  end.

(** ** Route handlers

    The handlers below have the same text in both files; what differs is
    the three validators they reach, which each file binds to its own. *)

Definition route_handler : Type := Event -> Table -> Response.

Module Shared.
Section Handlers.

Variable validate_room_id : string -> bool.
Variable validate_timestamp : string -> bool.
Variable validate_status : string -> bool.

Definition handle_root (event : Event) (table : Table) : Response :=
  match query_all_devices table with
  | Ok data =>
      create_response 200
        (VDict [("data", value_of_items data); ("count", len data)]) None
  | Raise e =>
      create_error_response 500 ("Failed to retrieve data: " ++ e) None
  end.

Definition handle_devices_list (event : Event) (table : Table) : Response :=
  match get_unique_devices table with
  | Ok devices =>
      create_response 200
        (VDict [("devices", value_of_strings devices); ("count", len devices)])
        None
  | Raise e =>
      create_error_response 500 ("Failed to retrieve devices: " ++ e) None
  end.

Definition handle_device_detail (event : Event) (table : Table) : Response :=
  let path_params := extract_path_params event in
  let query_params := extract_query_params event in
  let device_id := get_opt "device_id" path_params in
  let validators := [("device_id", validate_device_id)] in
  let (is_valid, errors) :=
    validate_params [("device_id", device_id)] validators in
  if negb is_valid then
    create_error_response 400 "Validation failed" (Some errors)
  else
    let start_time := get_opt "start_time" query_params in
    let end_time := get_opt "end_time" query_params in
    let status := get_opt "status" query_params in
    let optional_validators :=
      [("start_time", validate_timestamp);
       ("end_time", validate_timestamp);
       ("status", validate_status)] in
    let optional_params :=
      filter (fun kv => is_not_None (snd kv)) query_params in
    let (is_valid, errors) :=
      validate_params optional_params optional_validators in
    if negb is_valid then
      create_error_response 400 "Query parameter validation failed"
        (Some errors)
    else
      match query_device_by_id table device_id start_time end_time status with
      | Ok data =>
          create_response 200
            (VDict [("device_id", value_of_param device_id);
                    ("data", value_of_items data);
                    ("count", len data)]) None
      | Raise e =>
          create_error_response 500
            ("Failed to retrieve device data: " ++ e) None
      end.

Definition handle_rooms_list (event : Event) (table : Table) : Response :=
  match get_unique_rooms table with
  | Ok rooms =>
      create_response 200
        (VDict [("rooms", value_of_strings rooms); ("count", len rooms)]) None
  | Raise e =>
      create_error_response 500 ("Failed to retrieve rooms: " ++ e) None
  end.

Definition handle_room_detail (event : Event) (table : Table) : Response :=
  let path_params := extract_path_params event in
  let query_params := extract_query_params event in
  let room_id := get_opt "room_id" path_params in
  let validators := [("room_id", validate_room_id)] in
  let (is_valid, errors) := validate_params [("room_id", room_id)] validators in
  if negb is_valid then
    create_error_response 400 "Validation failed" (Some errors)
  else
    let start_time := get_opt "start_time" query_params in
    let end_time := get_opt "end_time" query_params in
    let optional_validators :=
      [("start_time", validate_timestamp);
       ("end_time", validate_timestamp)] in
    let optional_params :=
      filter (fun kv => is_not_None (snd kv)) query_params in
    let (is_valid, errors) :=
      validate_params optional_params optional_validators in
    if negb is_valid then
      create_error_response 400 "Query parameter validation failed"
        (Some errors)
    else
      match query_room_by_id table room_id start_time end_time with
      | Ok data =>
          create_response 200
            (VDict [("room_id", value_of_param room_id);
                    ("data", value_of_items data);
                    ("count", len data)]) None
      | Raise e =>
          create_error_response 500 ("Failed to retrieve room data: " ++ e)
            None
      end.

Definition handle_room_devices (event : Event) (table : Table) : Response :=
  let path_params := extract_path_params event in
  let room_id := get_opt "room_id" path_params in
  let validators := [("room_id", validate_room_id)] in
  let (is_valid, errors) := validate_params [("room_id", room_id)] validators in
  if negb is_valid then
    create_error_response 400 "Validation failed" (Some errors)
  else
    match get_devices_in_room table room_id with
    | Ok devices =>
        create_response 200
          (VDict [("room_id", value_of_param room_id);
                  ("devices", VList devices);
                  ("count", len devices)]) None
    | Raise e =>
        create_error_response 500 ("Failed to retrieve room devices: " ++ e)
          None
    end.

Definition handle_room_device_detail (event : Event) (table : Table)
  : Response :=
  let path_params := extract_path_params event in
  let query_params := extract_query_params event in
  let room_id := get_opt "room_id" path_params in
  let device_id := get_opt "device_id" path_params in
  let validators :=
    [("room_id", validate_room_id); ("device_id", validate_device_id)] in
  let (is_valid, errors) :=
    validate_params [("room_id", room_id); ("device_id", device_id)]
      validators in
  if negb is_valid then
    create_error_response 400 "Validation failed" (Some errors)
  else
    let start_time := get_opt "start_time" query_params in
    let end_time := get_opt "end_time" query_params in
    let status := get_opt "status" query_params in
    let optional_validators :=
      [("start_time", validate_timestamp);
       ("end_time", validate_timestamp);
       ("status", validate_status)] in
    let optional_params :=
      filter (fun kv => is_not_None (snd kv)) query_params in
    let (is_valid, errors) :=
      validate_params optional_params optional_validators in
    if negb is_valid then
      create_error_response 400 "Query parameter validation failed"
        (Some errors)
    else
      match query_room_device_specific table room_id device_id start_time
              end_time status with
      | Ok data =>
          create_response 200
            (VDict [("room_id", value_of_param room_id);
                    ("device_id", value_of_param device_id);
                    ("data", value_of_items data);
                    ("count", len data)]) None
      | Raise e =>
          create_error_response 500
            ("Failed to retrieve room-device data: " ++ e) None
      end.

End Handlers.

(** [ROUTE_HANDLERS.get(route_key)] *)
Fixpoint get_route (route_key : string * string)
    (routes : list ((string * string) * route_handler))
  : option route_handler :=
  match routes with
  | [] => None
  | ((method, path), h) :: routes' =>
      if String.eqb method (fst route_key) && String.eqb path (snd route_key)
      then Some h else get_route route_key routes'
  end.

(** The router over a route table: [handler] in [lambda_function.py],
    [lambda_handler] in [main.py].  The [context] argument is never read.
    No handler of the model raises, so the router's own [except] branch has
    nothing to catch. *)
Definition dispatch (routes : list ((string * string) * route_handler))
    (event : Event) (table : Table) : Response :=
  let http_method :=
    match httpMethod event with Some m => m | None => "GET" end in
  let resource_path :=
    match resource event with Some p => p | None => "/" end in
  let route_key := (http_method, resource_path) in
  match get_route route_key routes with
  | None =>
      create_error_response 404
        ("Route not found: " ++ http_method ++ " " ++ resource_path) None
  | Some route_handler => route_handler event table
  end.

End Shared.

(** ** [lambda_function.py] *)

Module LambdaFunction.

Definition validate_room_id (room_id : string) : bool :=
  if negb (Nat.eqb (str_count "_" room_id) 1) then false
  else
    match str_split "_" room_id with
    | [room_prefix; room_num] =>
        if negb (String.eqb room_prefix "room") then false
        else
          match int room_num with
          | Some num =>
              (num >? 0) && Nat.eqb (String.length room_num) 3
              && isdigit room_num
          | None => false
          end
    | _ => false
    end.

(** [validate_timestamp] over any behaviour of the parser. *)
Definition validate_timestamp_with (fromisoformat : string -> bool)
    (timestamp : string) : bool :=
  if negb (endswith "Z" timestamp) then false
  else fromisoformat (replace "Z" "+00:00" timestamp).

Definition validate_timestamp : string -> bool :=
  validate_timestamp_with Datetime.fromisoformat.

Definition valid_statuses : list string :=
  ["ok"; "sensor_error"; "offline"; "maintenance"].

Definition validate_status (status : string) : bool :=
  existsb (String.eqb status) valid_statuses.

Definition query_device_room_info_request (device_id : option string)
  : QueryParams :=
  mkQuery None (Eq (Key "device_id") device_id) None (Some "room_id").

Definition query_device_room_info (table : Table) (device_id : option string)
  : result (list string) :=
  reraise "Device room query failed: "
    (Items <- query table (query_device_room_info_request device_id) ;;
     rooms <- mapM (getitem "room_id") Items ;;
     Ok (sorted (set rooms))).

Definition query_device_in_specific_room_request (device_id room_id
    start_time end_time status : option string) : QueryParams :=
  let key_condition := Eq (Key "device_id") device_id in
  let key_condition :=
    if truthy start_time && truthy end_time then
      And key_condition (Between (Key "timestamp") start_time end_time)
    else if truthy start_time then
      And key_condition (Gte (Key "timestamp") start_time)
    else if truthy end_time then
      And key_condition (Lte (Key "timestamp") end_time)
    else key_condition in
  let filter_expressions := [Eq (Attr "room_id") room_id] in
  let filter_expressions :=
    if truthy status
    then (filter_expressions ++ [Eq (Attr "device_status") status])%list
    else filter_expressions in
  mkQuery None key_condition (combine_filters filter_expressions) None.

Definition query_device_in_specific_room (table : Table) (device_id room_id
    start_time end_time status : option string) : result (list Item) :=
  reraise "Device-room query failed: "
    (query table
       (query_device_in_specific_room_request device_id room_id start_time
          end_time status)).

Definition handle_root : route_handler := Shared.handle_root.
Definition handle_devices_list : route_handler := Shared.handle_devices_list.
Definition handle_device_detail : route_handler :=
  Shared.handle_device_detail validate_timestamp validate_status.
Definition handle_rooms_list : route_handler := Shared.handle_rooms_list.
Definition handle_room_detail : route_handler :=
  Shared.handle_room_detail validate_room_id validate_timestamp.
Definition handle_room_devices : route_handler :=
  Shared.handle_room_devices validate_room_id.
Definition handle_room_device_detail : route_handler :=
  Shared.handle_room_device_detail validate_room_id validate_timestamp
    validate_status.

Definition handle_device_rooms (event : Event) (table : Table) : Response :=
  let path_params := extract_path_params event in
  let device_id := get_opt "device_id" path_params in
  let validators := [("device_id", validate_device_id)] in
  let (is_valid, errors) :=
    validate_params [("device_id", device_id)] validators in
  if negb is_valid then
    create_error_response 400 "Validation failed" (Some errors)
  else
    match query_device_room_info table device_id with
    | Ok rooms =>
        create_response 200
          (VDict [("device_id", value_of_param device_id);
                  ("rooms", value_of_strings rooms);
                  ("count", len rooms)]) None
    | Raise e =>
        create_error_response 500 ("Failed to retrieve device rooms: " ++ e)
          None
    end.

Definition handle_device_room_detail (event : Event) (table : Table)
  : Response :=
  let path_params := extract_path_params event in
  let query_params := extract_query_params event in
  let device_id := get_opt "device_id" path_params in
  let room_id := get_opt "room_id" path_params in
  let validators :=
    [("device_id", validate_device_id); ("room_id", validate_room_id)] in
  let (is_valid, errors) :=
    validate_params [("device_id", device_id); ("room_id", room_id)]
      validators in
  if negb is_valid then
    create_error_response 400 "Validation failed" (Some errors)
  else
    let start_time := get_opt "start_time" query_params in
    let end_time := get_opt "end_time" query_params in
    let status := get_opt "status" query_params in
    let optional_validators :=
      [("start_time", validate_timestamp);
       ("end_time", validate_timestamp);
       ("status", validate_status)] in
    let optional_params :=
      filter (fun kv => is_not_None (snd kv)) query_params in
    let (is_valid, errors) :=
      validate_params optional_params optional_validators in
    if negb is_valid then
      create_error_response 400 "Query parameter validation failed"
        (Some errors)
    else
      match query_device_in_specific_room table device_id room_id start_time
              end_time status with
      | Ok data =>
          create_response 200
            (VDict [("device_id", value_of_param device_id);
                    ("room_id", value_of_param room_id);
                    ("data", value_of_items data);
                    ("count", len data)]) None
      | Raise e =>
          create_error_response 500
            ("Failed to retrieve device-room data: " ++ e) None
      end.

Definition ROUTE_HANDLERS : list ((string * string) * route_handler) :=
  [(("GET", "/"), handle_root);
   (("GET", "/devices"), handle_devices_list);
   (("GET", "/devices/{device_id}"), handle_device_detail);
   (("GET", "/devices/{device_id}/rooms"), handle_device_rooms);
   (("GET", "/devices/{device_id}/{room_id}"), handle_device_room_detail);
   (("GET", "/rooms"), handle_rooms_list);
   (("GET", "/rooms/{room_id}"), handle_room_detail);
   (("GET", "/rooms/{room_id}/devices"), handle_room_devices);
   (("GET", "/rooms/{room_id}/{device_id}"), handle_room_device_detail)].

Definition handler (event : Event) (table : Table) : Response :=
  Shared.dispatch ROUTE_HANDLERS event table.

End LambdaFunction.

(** ** [main.py] *)

Module Main.

Definition validate_room_id (room_id : string) : bool :=
  Nat.ltb 0 (String.length (strip room_id)).

Definition validate_timestamp_with (fromisoformat : string -> bool)
    (timestamp : string) : bool :=
  fromisoformat (replace "Z" "+00:00" timestamp).

Definition validate_timestamp : string -> bool :=
  validate_timestamp_with Datetime.fromisoformat.

Definition valid_statuses : list string :=
  ["ok"; "sensor_error"; "offline"; "maintenance"].

Definition validate_status (status : string) : bool :=
  existsb (String.eqb (lower status)) valid_statuses.

Definition handle_root : route_handler := Shared.handle_root.
Definition handle_devices_list : route_handler := Shared.handle_devices_list.
Definition handle_device_detail : route_handler :=
  Shared.handle_device_detail validate_timestamp validate_status.
Definition handle_rooms_list : route_handler := Shared.handle_rooms_list.
Definition handle_room_detail : route_handler :=
  Shared.handle_room_detail validate_room_id validate_timestamp.
Definition handle_room_devices : route_handler :=
  Shared.handle_room_devices validate_room_id.
Definition handle_room_device_detail : route_handler :=
  Shared.handle_room_device_detail validate_room_id validate_timestamp
    validate_status.

Definition ROUTE_HANDLERS : list ((string * string) * route_handler) :=
  [(("GET", "/"), handle_root);
   (("GET", "/devices"), handle_devices_list);
   (("GET", "/devices/{device_id}"), handle_device_detail);
   (("GET", "/rooms"), handle_rooms_list);
   (("GET", "/rooms/{room_id}"), handle_room_detail);
   (("GET", "/rooms/{room_id}/devices"), handle_room_devices);
   (("GET", "/rooms/{room_id}/{device_id}"), handle_room_device_detail)].

Definition lambda_handler (event : Event) (table : Table) : Response :=
  Shared.dispatch ROUTE_HANDLERS event table.

End Main.

(** ** Statements of the specification

    The definitions below follow the words of the specification; the
    theorems compare them with the code above. *)

(** "Exactly one of [ok], [sensor_error], [offline], [maintenance]". *)
Definition spec_status (s : string) : Prop :=
  s = "ok" \/ s = "sensor_error" \/ s = "offline" \/ s = "maintenance".

(** "Literal prefix [room] and a 3-character numeric string whose integer
    value is greater than 0", split on exactly one underscore. *)
Definition spec_room_id (s : string) : Prop :=
  exists a b c : ascii,
    s = "room_" ++ String a (String b (String c EmptyString))
    /\ isdecimal a = true /\ isdecimal b = true /\ isdecimal c = true
    /\ 0 < 100 * digit_value a + 10 * digit_value b + digit_value c.

(** [room_NNN] for a number below 1000, zero-padded. *)
Definition digit_char (n : nat) : ascii := ascii_of_nat (48 + n).

Definition room_NNN (n : nat) : string :=
  "room_" ++ String (digit_char (n / 100))
               (String (digit_char (n / 10 mod 10))
                  (String (digit_char (n mod 10)) EmptyString)).

(** The two implementations found in the repository. *)
Inductive source_file : Type :=
| lambda_function_py
| main_py.

Definition entry_point (f : source_file) : Event -> Table -> Response :=
  match f with
  | lambda_function_py => LambdaFunction.handler
  | main_py => Main.lambda_handler
  end.

(** What the pipeline has to report for one entry of [params]: nothing for
    an absent value or an unregistered name, one message for a value that
    its validator refuses. *)
Definition spec_error (validators : list (string * (string -> bool)))
    (entry : string * option string) : list string :=
  match snd entry with
  | None => []
  | Some value =>
      match get (fst entry) validators with
      | Some validator =>
          if validator value then []
          else [("Invalid " ++ fst entry ++ ": " ++ value)%string]
      | None => []
      end
  end.

Definition spec_errors (validators : list (string * (string -> bool)))
    (params : list (string * option string)) : list string :=
  flat_map (spec_error validators) params.

(** The payload array of a body and its [count] field. *)
Definition payload (body : value) : option (list value) :=
  match body with
  | VDict entries =>
      match get "data" entries, get "devices" entries, get "rooms" entries with
      | Some (VList l), _, _ => Some l
      | None, Some (VList l), _ => Some l
      | None, None, Some (VList l) => Some l
      | _, _, _ => None
      end
  | _ => None
  end.

Definition count_field (body : value) : option Z :=
  match body with
  | VDict entries =>
      match get "count" entries with
      | Some (VInt n) => Some n
      | _ => None
      end
  | _ => None
  end.

Definition count_is_length (r : Response) : Prop :=
  exists l, payload (body r) = Some l
            /\ count_field (body r) = Some (Z.of_nat (List.length l)).

(** The route table of the specification, section 6. *)
Definition spec_routes : list (string * string) :=
  [("GET", "/");
   ("GET", "/devices");
   ("GET", "/devices/{device_id}");
   ("GET", "/devices/{device_id}/rooms");
   ("GET", "/devices/{device_id}/{room_id}");
   ("GET", "/rooms");
   ("GET", "/rooms/{room_id}");
   ("GET", "/rooms/{room_id}/devices");
   ("GET", "/rooms/{room_id}/{device_id}")].

(** The pair the router looks up for an event. *)
Definition route_key (event : Event) : string * string :=
  (match httpMethod event with Some m => m | None => "GET" end,
   match resource event with Some p => p | None => "/" end).

Definition empty_event : Event := mkEvent None None None None.

(** What the proofs ask of a route handler: a 200 comes with a counted
    payload, the status is one of 200, 400 and 500, and of the event only
    the path and query parameters are read. *)
Definition success_is_counted (h : route_handler) : Prop :=
  forall event table,
    statusCode (h event table) = 200 -> count_is_length (h event table).

Definition status_is_200_400_500 (h : route_handler) : Prop :=
  forall event table,
    statusCode (h event table) = 200 \/ statusCode (h event table) = 400
    \/ statusCode (h event table) = 500.

Definition reads_parameters_only (h : route_handler) : Prop :=
  forall e e' table,
    pathParameters e = pathParameters e' ->
    queryStringParameters e = queryStringParameters e' ->
    h e table = h e' table.

Definition behaves (h : route_handler) : Prop :=
  success_is_counted h /\ status_is_200_400_500 h /\ reads_parameters_only h.

(** A small table: one device seen in two rooms, a second device, a
    reading without temperature. *)
Definition sample_table : Table :=
  mkTable
    [mkRecord "sensor_01" "room_001" "2025-08-01T00:05:00Z" None
       "sensor_error";
     mkRecord "sensor_02" "room_001" "2025-08-01T00:01:00Z" (Some (220, -1))
       "ok";
     mkRecord "sensor_01" "room_002" "2025-08-01T00:02:00Z" (Some (221, -1))
       "ok";
     mkRecord "sensor_01" "room_001" "2025-08-01T00:00:00Z" (Some (215, -1))
       "ok"]
    None.

Definition sample_event : Event :=
  mkEvent (Some "GET") (Some "/devices/{device_id}")
    (Some [("device_id", Some "sensor_01")])
    (Some [("status", Some "ok")]).

(** Lexicographic order on strings, as [sorted] sees it. *)
Definition lex_le (a b : string) : Prop := String.leb a b = true.

(** "Duplicate-free and sorted in lexicographic order". *)
Definition spec_listing (ids : list string) : Prop :=
  NoDup ids /\ StronglySorted lex_le ids.



(** Requests on which the two files part. *)
Definition upper_case_status_event : Event :=
  mkEvent (Some "GET") (Some "/devices/{device_id}")
    (Some [("device_id", Some "sensor_01")])
    (Some [("status", Some "OK")]).

Definition upper_case_room_event : Event :=
  mkEvent (Some "GET") (Some "/rooms/{room_id}")
    (Some [("room_id", Some "ROOM_001")]) None.

Definition missing_Z_event : Event :=
  mkEvent (Some "GET") (Some "/devices/{device_id}")
    (Some [("device_id", Some "sensor_01")])
    (Some [("start_time", Some "2025-08-01T10:00:00")]).

(** ** Further statements *)

(** A [Decimal] somewhere in a value. *)
Fixpoint has_decimal (v : value) : bool :=
  match v with
  | VDecimal _ => true
  | VList items => existsb has_decimal items
  | VDict entries =>
      existsb (fun kv : string * value => let (_, x) := kv in has_decimal x)
        entries
  | _ => false
  end.

(** Induction on a value, through the lists and dictionaries it nests. *)
Section ValueInduction.

Variable P : value -> Prop.
Hypothesis on_None : P VNone.
Hypothesis on_Int : forall n, P (VInt n).
Hypothesis on_Decimal : forall d, P (VDecimal d).
Hypothesis on_Float : forall f, P (VFloat f).
Hypothesis on_Str : forall s, P (VStr s).
Hypothesis on_List : forall items, Forall P items -> P (VList items).
Hypothesis on_Dict :
  forall entries, Forall (fun kv => P (snd kv)) entries -> P (VDict entries).

Fixpoint value_induction (v : value) : P v :=
  match v with
  | VNone => on_None
  | VInt n => on_Int n
  | VDecimal d => on_Decimal d
  | VFloat f => on_Float f
  | VStr s => on_Str s
  | VList items =>
      on_List items
        ((fix all (l : list value) : Forall P l :=
            match l with
            | [] => Forall_nil P
            | x :: l' => Forall_cons x (value_induction x) (all l')
            end) items)
  | VDict entries =>
      on_Dict entries
        ((fix all (l : list (string * value))
            : Forall (fun kv => P (snd kv)) l :=
            match l with
            | [] => Forall_nil _
            | (k, x) :: l' =>
                @Forall_cons _ (fun kv => P (snd kv)) (k, x) l'
                  (value_induction x) (all l')
            end) entries)
  end.

End ValueInduction.

(** The headers that [create_response] starts from. *)
Definition default_headers : list (string * string) :=
  [("Content-Type", "application/json");
   ("Access-Control-Allow-Origin", "*");
   ("Access-Control-Allow-Methods", "GET, POST, PUT, DELETE, OPTIONS");
   ("Access-Control-Allow-Headers", "Content-Type, Authorization")].

(** The error envelope of a body: its message and, when there is one, its
    list of details. *)
Definition error_message (body : value) : option string :=
  match body with
  | VDict entries =>
      match get "error" entries with
      | Some (VStr message) => Some message
      | _ => None
      end
  | _ => None
  end.

Definition error_details (body : value) : option (list value) :=
  match body with
  | VDict entries =>
      match get "details" entries with
      | Some (VList details) => Some details
      | _ => None
      end
  | _ => None
  end.

(** What every response of a handler looks like, whatever its status. *)
Definition well_shaped (r : Response) : Prop :=
  headers r = default_headers
  /\ has_decimal (body r) = false
  /\ (statusCode r = 200 -> error_message (body r) = None)
  /\ (statusCode r <> 200 -> exists message,
         error_message (body r) = Some message)
  /\ (statusCode r = 400 ->
      exists details,
        details <> []
        /\ error_details (body r) = Some (map VStr details)
        /\ (error_message (body r) = Some "Validation failed"
            \/ error_message (body r)
               = Some "Query parameter validation failed"))
  /\ (statusCode r <> 400 -> error_details (body r) = None).

Definition always_well_shaped (h : route_handler) : Prop :=
  forall event table, well_shaped (h event table).

(** A handler that refuses a request does so without the store, and gives
    no success when the store fails. *)
Definition guards_the_store (h : route_handler) : Prop :=
  (forall event table table',
      statusCode (h event table) = 400 -> h event table' = h event table)
  /\ (forall event table cause,
         outage table = Some cause -> statusCode (h event table) <> 200).

(** A table with the records of [sample_table] that fails on every call. *)
Definition failing_table : Table :=
  mkTable (rows sample_table) (Some "ProvisionedThroughputExceededException").

(** The number that a string of decimal digits writes. *)
Fixpoint decimal_from (acc : Z) (s : string) : Z :=
  match s with
  | EmptyString => acc
  | String c s' => decimal_from (10 * acc + digit_value c) s'
  end.

Definition decimal_value (s : string) : Z := decimal_from 0 s.

(** A device identifier as [validate_device_id] reads it: a type and a
    number around the only underscore. *)
Definition device_id_parts (s type num : string) : Prop :=
  s = type ++ String "_" num
  /\ str_count "_" type = 0%nat /\ str_count "_" num = 0%nat.

(** One handler refuses whatever another refuses. *)
Definition refuses_more (h h' : route_handler) : Prop :=
  forall event table,
    statusCode (h event table) = 400 -> statusCode (h' event table) = 400.

(** The validators that each file binds to the optional filters. *)
Definition timestamp_validator (f : source_file) : string -> bool :=
  match f with
  | lambda_function_py => LambdaFunction.validate_timestamp
  | main_py => Main.validate_timestamp
  end.

Definition status_validator (f : source_file) : string -> bool :=
  match f with
  | lambda_function_py => LambdaFunction.validate_status
  | main_py => Main.validate_status
  end.

(** The validator of an optional filter of [GET /devices/{device_id}], by
    the name of the filter. *)
Definition filter_validator (f : source_file) (name : string)
  : option (string -> bool) :=
  get name [("start_time", timestamp_validator f);
            ("end_time", timestamp_validator f);
            ("status", status_validator f)].

(** A request for the readings of a device. *)
Definition device_request
    (path_params query_params : option (list (string * option string)))
  : Event :=
  mkEvent (Some "GET") (Some "/devices/{device_id}") path_params query_params.

(** A request for the readings of a room. *)
Definition room_request
    (path_params query_params : option (list (string * option string)))
  : Event :=
  mkEvent (Some "GET") (Some "/rooms/{room_id}") path_params query_params.

(** A timestamp within the bounds that are given and not empty, both
    inclusive. *)
Definition within (start_time end_time : option string) (timestamp : string)
  : Prop :=
  (forall s, start_time = Some s -> s <> EmptyString -> lex_le s timestamp)
  /\ (forall e, end_time = Some e -> e <> EmptyString -> lex_le timestamp e).

(** A record of the status asked for, when one is given and not empty. *)
Definition status_is (status : option string) (r : TelemetryRecord) : Prop :=
  forall st, status = Some st -> st <> EmptyString -> rec_device_status r = st.

(** * Properties *)

#[local] Arguments Z.mul : simpl never.
#[local] Arguments Z.add : simpl never.
#[local] Arguments Z.of_nat : simpl never.

(** ** Characters and strings *)

Lemma isdigit_char_not_underscore (c : ascii) :
  isdigit_char c = true -> Ascii.eqb c "_" = false.
Proof.
  destruct c as [[] [] [] [] [] [] [] []]; vm_compute; congruence.
Qed.

Lemma isdigit_char_not_space (c : ascii) :
  isdigit_char c = true -> isspace c = false.
Proof.
  destruct c as [[] [] [] [] [] [] [] []]; vm_compute; congruence.
Qed.

Lemma isdigit_char_not_sign (c : ascii) :
  isdigit_char c = true -> Ascii.eqb c "+" = false /\ Ascii.eqb c "-" = false.
Proof.
  destruct c as [[] [] [] [] [] [] [] []]; vm_compute; intuition congruence.
Qed.

Lemma isdecimal_isdigit_char (c : ascii) :
  isdecimal c = true -> isdigit_char c = true.
Proof.
  intros H. unfold isdigit_char. rewrite H. reflexivity.
Qed.

Lemma split_without_separator (c : ascii) (s : string) :
  str_count c s = 0%nat -> str_split c s = [s].
Proof.
  induction s as [|a s IH]; simpl; intros H.
  - reflexivity.
  - destruct (Ascii.eqb a c); [discriminate|].
    rewrite IH by assumption. reflexivity.
Qed.

(** A string with exactly one separator splits in two parts around it. *)
Lemma split_one_separator (c : ascii) (s : string) :
  str_count c s = 1%nat ->
  exists p q, str_split c s = [p; q] /\ s = p ++ String c q.
Proof.
  induction s as [|a s IH]; simpl; intros H.
  - discriminate.
  - destruct (Ascii.eqb a c) eqn:E.
    + apply Ascii.eqb_eq in E. subst a. injection H as H.
      exists EmptyString, s. rewrite split_without_separator by assumption.
      split; reflexivity.
    + destruct (IH H) as (p & q & Hs & Heq).
      exists (String a p), q. rewrite Hs. split; [reflexivity|].
      simpl. congruence.
Qed.

(** Once every character is a digit in the sense of [isdigit], [int]
    accepts the digit part only if all of them are decimal digits. *)
Lemma int_digits_of_digits (s : string) :
  forall after acc n,
    forall_chars isdigit_char s = true ->
    int_digits after acc s = Some n ->
    forall_chars isdecimal s = true.
Proof.
  induction s as [|c s IH]; simpl; intros after acc n Hd Hn.
  - reflexivity.
  - apply andb_prop in Hd as [Hc Hs].
    destruct (isdecimal c) eqn:E.
    + simpl. eapply IH; eassumption.
    + rewrite (isdigit_char_not_underscore c Hc) in Hn. discriminate.
Qed.

Lemma int_of_three_decimals (a b c : ascii) :
  isdecimal a = true -> isdecimal b = true -> isdecimal c = true ->
  int (String a (String b (String c EmptyString)))
  = Some (100 * digit_value a + 10 * digit_value b + digit_value c).
Proof.
  intros Ha Hb Hc.
  pose proof (isdigit_char_not_space a (isdecimal_isdigit_char a Ha)) as Sa.
  pose proof (isdigit_char_not_space c (isdecimal_isdigit_char c Hc)) as Sc.
  destruct (isdigit_char_not_sign a (isdecimal_isdigit_char a Ha)) as [P M].
  unfold int, strip. simpl. rewrite Sa. simpl. rewrite Sc. simpl.
  rewrite P, M. simpl. rewrite Ha, Hb, Hc. f_equal. lia.
Qed.

(** ** [validate_status] *)

Lemma validate_status_exact (s : string) :
  LambdaFunction.validate_status s = true <-> spec_status s.
Proof.
  unfold LambdaFunction.validate_status, LambdaFunction.valid_statuses,
    spec_status.
  simpl. rewrite !orb_true_iff, !String.eqb_eq. intuition discriminate.
Qed.

Lemma validate_status_rejects :
  LambdaFunction.validate_status "OK" = false
  /\ LambdaFunction.validate_status "broken" = false
  /\ LambdaFunction.validate_status "" = false.
Proof. repeat split. Qed.

(** C3, in [main.py]: [validate_status] lower-cases its argument before
    the membership test, so it returns true on ["OK"], a string that is
    none of the four lowercase names;  [lambda_function.py] rejects it. *)
Theorem main_validate_status_accepts_upper_case :
  Main.validate_status "OK" = true
  /\ ~ spec_status "OK"
  /\ LambdaFunction.validate_status "OK" = false
  /\ statusCode (Main.lambda_handler upper_case_status_event sample_table)
     = 200
  /\ statusCode (LambdaFunction.handler upper_case_status_event sample_table)
     = 400.
Proof.
  split; [reflexivity|]. split; [|repeat split].
  unfold spec_status. intuition discriminate.
Qed.

(** ** [validate_room_id] *)

Lemma validate_room_id_exact (s : string) :
  LambdaFunction.validate_room_id s = true <-> spec_room_id s.
Proof.
  unfold LambdaFunction.validate_room_id, spec_room_id. split.
  - destruct (Nat.eqb (str_count "_" s) 1) eqn:Hc; simpl; [|discriminate].
    apply Nat.eqb_eq in Hc.
    destruct (split_one_separator _ _ Hc) as (p & q & Hs & Heq).
    rewrite Hs.
    destruct (String.eqb p "room") eqn:Hp; simpl; [|discriminate].
    apply String.eqb_eq in Hp. subst p.
    destruct (int q) as [num|] eqn:Hint; [|discriminate].
    intros H. apply andb_prop in H as [H Hdig].
    apply andb_prop in H as [Hpos Hlen].
    destruct q as [|a [|b [|c [|]]]]; try discriminate.
    simpl in Hdig.
    assert (Hdec : forall_chars isdecimal
                     (String a (String b (String c EmptyString))) = true).
    { unfold int, strip in Hint. simpl in Hint.
      apply andb_prop in Hdig as [Da Hdig'].
      apply andb_prop in Hdig' as [Db Hdig'].
      apply andb_prop in Hdig' as [Dc _].
      rewrite (isdigit_char_not_space a Da) in Hint. simpl in Hint.
      rewrite (isdigit_char_not_space c Dc) in Hint. simpl in Hint.
      destruct (isdigit_char_not_sign a Da) as [P M].
      rewrite P, M in Hint.
      apply (int_digits_of_digits
               (String a (String b (String c EmptyString))) false 0 num);
        [|exact Hint].
      simpl. rewrite Da, Db, Dc. reflexivity. }
    simpl in Hdec.
    apply andb_prop in Hdec as [Da Hdec].
    apply andb_prop in Hdec as [Db Hdec].
    apply andb_prop in Hdec as [Dc _].
    rewrite (int_of_three_decimals a b c Da Db Dc) in Hint.
    injection Hint as Hnum. subst num.
    exists a, b, c. repeat split; try assumption.
    apply Z.gtb_lt in Hpos. lia.
  - intros (a & b & c & Heq & Da & Db & Dc & Hpos). subst s.
    pose proof (isdigit_char_not_underscore a (isdecimal_isdigit_char a Da)) as Ua.
    pose proof (isdigit_char_not_underscore b (isdecimal_isdigit_char b Db)) as Ub.
    pose proof (isdigit_char_not_underscore c (isdecimal_isdigit_char c Dc)) as Uc.
    simpl. rewrite Ua, Ub, Uc. simpl.
    rewrite (int_of_three_decimals a b c Da Db Dc).
    rewrite (isdecimal_isdigit_char a Da), (isdecimal_isdigit_char b Db),
      (isdecimal_isdigit_char c Dc). simpl.
    rewrite !andb_true_r. apply Z.gtb_lt. lia.
Qed.

(** [room_001] through [room_999] pass. *)
Lemma validate_room_id_001_to_999 :
  forallb (fun n => LambdaFunction.validate_room_id (room_NNN n)) (seq 1 999)
  = true.
Proof. vm_compute. reflexivity. Qed.

Lemma validate_room_id_rejects :
  map LambdaFunction.validate_room_id
    ["room_000"; "room_1"; "room_0001"; "ROOM_001"; "room_abc"; "room01"]
  = [false; false; false; false; false; false].
Proof. reflexivity. Qed.

(** C4, in [main.py]: [validate_room_id] only asks for a string that is
    not blank, so it returns true on ["ROOM_001"], ["room_abc"],
    ["room_000"], ["room_1"] and ["room_0001"], none of which has the
    shape of the claim;  [lambda_function.py] rejects all five. *)
Theorem main_validate_room_id_accepts_any_text :
  map Main.validate_room_id
    ["ROOM_001"; "room_abc"; "room_000"; "room_1"; "room_0001"]
  = [true; true; true; true; true]
  /\ ~ spec_room_id "ROOM_001"
  /\ map LambdaFunction.validate_room_id
       ["ROOM_001"; "room_abc"; "room_000"; "room_1"; "room_0001"]
     = [false; false; false; false; false]
  /\ statusCode (Main.lambda_handler upper_case_room_event sample_table)
     = 200
  /\ statusCode (LambdaFunction.handler upper_case_room_event sample_table)
     = 400.
Proof.
  split; [reflexivity|]. split; [|repeat split].
  intros (a & b & c & Heq & _). discriminate.
Qed.

(** ** [validate_timestamp] *)

Section Timestamp.

Variable fromisoformat : string -> bool.

(** Whatever the parser accepts, [lambda_function.py] asks for the final
    [Z] and for the parse of the text with every [Z] replaced. *)
Lemma validate_timestamp_exact (s : string) :
  LambdaFunction.validate_timestamp_with fromisoformat s = true
  <-> endswith "Z" s = true
      /\ fromisoformat (replace "Z" "+00:00" s) = true.
Proof.
  unfold LambdaFunction.validate_timestamp_with.
  destruct (endswith "Z" s); simpl; intuition discriminate.
Qed.

Lemma replace_absent (c : ascii) (new s : string) :
  str_count c s = 0%nat -> replace c new s = s.
Proof.
  induction s as [|a s IH]; simpl; intros H; [reflexivity|].
  destruct (Ascii.eqb a c); [discriminate|]. f_equal. auto.
Qed.

(** [main.py] has no test on the final [Z]: a text without any [Z] is
    valid there as soon as the parser accepts it. *)
Lemma main_validate_timestamp_without_Z (s : string) :
  str_count "Z" s = 0%nat ->
  Main.validate_timestamp_with fromisoformat s = fromisoformat s.
Proof.
  intros H. unfold Main.validate_timestamp_with.
  rewrite replace_absent by assumption. reflexivity.
Qed.

End Timestamp.

Lemma validate_timestamp_examples :
  map LambdaFunction.validate_timestamp
    ["2025-08-01T00:00:00Z"; "2025-13-01T00:00:00Z"; "2025-08-01T25:00:00Z";
     "2025-08-01T10:00:00"; "2025/08/01 10:00:00"; "2025-02-30T10:00:00Z"]
  = [true; false; false; false; false; false].
Proof. reflexivity. Qed.

(** C5, in [main.py]: [validate_timestamp] goes to the parser without the
    test on the final [Z], so the well-formed date-time
    ["2025-08-01T10:00:00"], which has no [Z], is valid there;
    [lambda_function.py] rejects it. *)
Theorem main_validate_timestamp_accepts_missing_Z :
  Main.validate_timestamp "2025-08-01T10:00:00" = true
  /\ endswith "Z" "2025-08-01T10:00:00" = false
  /\ LambdaFunction.validate_timestamp "2025-08-01T10:00:00" = false
  /\ statusCode (Main.lambda_handler missing_Z_event sample_table) = 200
  /\ statusCode (LambdaFunction.handler missing_Z_event sample_table) = 400.
Proof. repeat split. Qed.

(** ** [validate_params] *)

Lemma validate_params_errors_from (validators : list (string * (string -> bool)))
    (params : list (string * option string)) :
  forall acc : list string,
    fold_left
      (fun errors entry =>
         match get (fst entry) validators, snd entry with
         | Some validator, Some value =>
             if negb (validator value)
             then (errors
                   ++ [("Invalid " ++ fst entry ++ ": " ++ value)%string])%list
             else errors
         | _, _ => errors
         end)
      params acc
    = (acc ++ spec_errors validators params)%list.
Proof.
  induction params as [|[name v] params IH]; intros acc; simpl.
  - rewrite app_nil_r. reflexivity.
  - rewrite IH. unfold spec_error. simpl.
    destruct (get name validators) as [validator|], v as [x|]; simpl;
      try reflexivity.
    destruct (validator x); simpl; [reflexivity|].
    rewrite <- app_assoc. reflexivity.
Qed.

(** C7: [validate_params] returns the messages ["Invalid <name>: <value>"]
    of the entries whose value is present and refused by the validator
    registered for the name, one per such entry and in the order of
    [params]; an absent value gives no message; the flag is true exactly
    when there is no message. *)
Theorem validate_params_reports_each_failure
    (params : list (string * option string))
    (validators : list (string * (string -> bool))) :
  snd (validate_params params validators) = spec_errors validators params
  /\ (forall name, spec_error validators (name, None) = [])
  /\ (fst (validate_params params validators) = true
      <-> snd (validate_params params validators) = []).
Proof.
  unfold validate_params. rewrite validate_params_errors_from. simpl.
  split; [reflexivity|]. split; [reflexivity|].
  destruct (spec_errors validators params); simpl; intuition discriminate.
Qed.

(** ** Route handlers *)

Create HintDb handlers.
#[local] Hint Unfold Shared.handle_root Shared.handle_devices_list
  Shared.handle_device_detail Shared.handle_rooms_list
  Shared.handle_room_detail Shared.handle_room_devices
  Shared.handle_room_device_detail LambdaFunction.handle_device_rooms
  LambdaFunction.handle_device_room_detail : handlers.

(** The two validations of a handler, each passing or failing. *)
Ltac expose_handler :=
  cbv zeta;
  repeat match goal with
    | |- context [validate_params ?p ?v] =>
        destruct (validate_params p v) as [[|] ?]; cbn [negb]
    end.

Ltac split_on_query :=
  match goal with
  | |- context [match ?q with Ok _ => _ | Raise _ => _ end] => destruct q
  end.

Ltac finish_count :=
  cbn [statusCode create_error_response create_response];
  first
    [ discriminate
    | intros _; unfold count_is_length, create_response, value_of_items,
        value_of_strings, len;
      cbn; eexists; split; [reflexivity|];
      rewrite ?length_map; reflexivity ].

Ltac handler_behaves :=
  unfold behaves; split; [|split];
  [ unfold success_is_counted; intros event table;
    autounfold with handlers; expose_handler; try finish_count;
    split_on_query; finish_count
  | unfold status_is_200_400_500; intros event table;
    autounfold with handlers; expose_handler; try split_on_query;
    cbn [statusCode create_error_response create_response]; auto
  | unfold reads_parameters_only; intros e e' table Hp Hq;
    autounfold with handlers;
    unfold extract_path_params, extract_query_params;
    rewrite ?Hp, ?Hq; reflexivity ].

Section SharedHandlers.

Variables validate_room_id validate_timestamp validate_status : string -> bool.

Lemma handle_root_behaves : behaves Shared.handle_root.
Proof. handler_behaves. Qed.

Lemma handle_devices_list_behaves : behaves Shared.handle_devices_list.
Proof. handler_behaves. Qed.

Lemma handle_rooms_list_behaves : behaves Shared.handle_rooms_list.
Proof. handler_behaves. Qed.

Lemma handle_device_detail_behaves :
  behaves (Shared.handle_device_detail validate_timestamp validate_status).
Proof. handler_behaves. Qed.

Lemma handle_room_detail_behaves :
  behaves (Shared.handle_room_detail validate_room_id validate_timestamp).
Proof. handler_behaves. Qed.

Lemma handle_room_devices_behaves :
  behaves (Shared.handle_room_devices validate_room_id).
Proof. handler_behaves. Qed.

Lemma handle_room_device_detail_behaves :
  behaves
    (Shared.handle_room_device_detail validate_room_id validate_timestamp
       validate_status).
Proof. handler_behaves. Qed.

End SharedHandlers.

Lemma handle_device_rooms_behaves : behaves LambdaFunction.handle_device_rooms.
Proof. handler_behaves. Qed.

Lemma handle_device_room_detail_behaves :
  behaves LambdaFunction.handle_device_room_detail.
Proof. handler_behaves. Qed.

Create HintDb routes.
#[local] Hint Unfold LambdaFunction.ROUTE_HANDLERS LambdaFunction.handle_root
  LambdaFunction.handle_devices_list LambdaFunction.handle_device_detail
  LambdaFunction.handle_rooms_list LambdaFunction.handle_room_detail
  LambdaFunction.handle_room_devices LambdaFunction.handle_room_device_detail
  Main.ROUTE_HANDLERS Main.handle_root Main.handle_devices_list
  Main.handle_device_detail Main.handle_rooms_list Main.handle_room_detail
  Main.handle_room_devices Main.handle_room_device_detail : routes.

Lemma lambda_function_handlers_behave :
  Forall behaves (map snd LambdaFunction.ROUTE_HANDLERS).
Proof.
  autounfold with routes. cbn [map snd].
  repeat apply Forall_cons; try apply Forall_nil;
    auto using handle_root_behaves, handle_devices_list_behaves,
      handle_rooms_list_behaves, handle_device_detail_behaves,
      handle_room_detail_behaves, handle_room_devices_behaves,
      handle_room_device_detail_behaves, handle_device_rooms_behaves,
      handle_device_room_detail_behaves.
Qed.

Lemma main_handlers_behave : Forall behaves (map snd Main.ROUTE_HANDLERS).
Proof.
  autounfold with routes. cbn [map snd].
  repeat apply Forall_cons; try apply Forall_nil;
    auto using handle_root_behaves, handle_devices_list_behaves,
      handle_rooms_list_behaves, handle_device_detail_behaves,
      handle_room_detail_behaves, handle_room_devices_behaves,
      handle_room_device_detail_behaves.
Qed.

(** ** Router *)

Lemma get_route_In (key : string * string)
    (routes : list ((string * string) * route_handler)) (h : route_handler) :
  Shared.get_route key routes = Some h -> In h (map snd routes).
Proof.
  induction routes as [|[[m p] h'] routes IH]; simpl; [discriminate|].
  destruct (String.eqb m (fst key) && String.eqb p (snd key)).
  - intros [= ->]. left. reflexivity.
  - intros H. right. auto.
Qed.

Lemma get_route_None (key : string * string)
    (routes : list ((string * string) * route_handler)) :
  Shared.get_route key routes = None <-> ~ In key (map fst routes).
Proof.
  destruct key as [km kp].
  induction routes as [|[[m p] h'] routes IH]; simpl; [tauto|].
  destruct (String.eqb m km) eqn:Em, (String.eqb p kp) eqn:Ep; simpl;
    rewrite ?String.eqb_eq, ?String.eqb_neq in *;
    try (subst; split; [discriminate | intros H; exfalso; apply H; auto]);
    rewrite IH; split; intros H; try tauto;
    intros [E|I]; try (injection E as E1 E2; congruence); tauto.
Qed.

Lemma dispatch_cases (routes : list ((string * string) * route_handler))
    (event : Event) (table : Table) :
  match Shared.get_route (route_key event) routes with
  | Some h => Shared.dispatch routes event table = h event table
  | None =>
      Shared.dispatch routes event table
      = create_error_response 404
          ("Route not found: " ++ fst (route_key event) ++ " "
           ++ snd (route_key event)) None
  end.
Proof.
  unfold Shared.dispatch, route_key. simpl.
  destruct (Shared.get_route _ routes); reflexivity.
Qed.

Lemma entry_point_routes (f : source_file) :
  exists routes,
    entry_point f = Shared.dispatch routes
    /\ Forall behaves (map snd routes)
    /\ routes = match f with
                | lambda_function_py => LambdaFunction.ROUTE_HANDLERS
                | main_py => Main.ROUTE_HANDLERS
                end.
Proof.
  destruct f; eexists; (split; [reflexivity|]); split;
    auto using lambda_function_handlers_behave, main_handlers_behave.
Qed.

(** The router answers 404 exactly on the pairs that its table lacks. *)
Lemma dispatch_404_iff (routes : list ((string * string) * route_handler))
    (event : Event) (table : Table) :
  Forall behaves (map snd routes) ->
  (statusCode (Shared.dispatch routes event table) = 404
   <-> ~ In (route_key event) (map fst routes)).
Proof.
  intros Hall. rewrite <- get_route_None.
  pose proof (dispatch_cases routes event table) as Hd.
  destruct (Shared.get_route (route_key event) routes) as [h|] eqn:Hr;
    rewrite Hd.
  - apply get_route_In in Hr.
    rewrite Forall_forall in Hall. destruct (Hall h Hr) as (_ & Hs & _).
    destruct (Hs event table) as [E|[E|E]]; rewrite E;
      split; discriminate.
  - split; reflexivity.
Qed.

Lemma lambda_function_routes_are_the_spec_routes :
  map fst LambdaFunction.ROUTE_HANDLERS = spec_routes.
Proof. reflexivity. Qed.

(** In [lambda_function.py] the router answers 404 exactly off the nine
    routes of the specification. *)
Lemma lambda_function_404_iff (event : Event) (table : Table) :
  statusCode (LambdaFunction.handler event table) = 404
  <-> ~ In (route_key event) spec_routes.
Proof.
  rewrite <- lambda_function_routes_are_the_spec_routes.
  apply dispatch_404_iff, lambda_function_handlers_behave.
Qed.

(** C6, in [main.py]: the route table has seven entries; the pairs
    [GET /devices/{device_id}/rooms] and [GET /devices/{device_id}/{room_id}]
    of the specification's table are missing from it, and the router
    answers 404 on both, whatever the parameters and the table;
    [lambda_function.py] registers the nine routes and answers 404 on
    neither. *)
Theorem main_router_lacks_two_routes
    (path_params query_params : option (list (string * option string)))
    (table : Table) :
  let rooms_of_device :=
    mkEvent (Some "GET") (Some "/devices/{device_id}/rooms") path_params
      query_params in
  let device_in_room :=
    mkEvent (Some "GET") (Some "/devices/{device_id}/{room_id}") path_params
      query_params in
  In (route_key rooms_of_device) spec_routes
  /\ In (route_key device_in_room) spec_routes
  /\ statusCode (Main.lambda_handler rooms_of_device table) = 404
  /\ statusCode (Main.lambda_handler device_in_room table) = 404
  /\ statusCode (LambdaFunction.handler rooms_of_device table) <> 404
  /\ statusCode (LambdaFunction.handler device_in_room table) <> 404.
Proof.
  intros rooms_of_device device_in_room.
  assert (H1 : In (route_key rooms_of_device) spec_routes)
    by (simpl; tauto).
  assert (H2 : In (route_key device_in_room) spec_routes)
    by (simpl; tauto).
  repeat split; try assumption; try reflexivity;
    rewrite lambda_function_404_iff; tauto.
Qed.

(** C2: on both entry points and for every event and table, a response
    with status 200 carries a body whose [count] is the length of its
    payload array ([data], [devices] or [rooms]). *)
Theorem success_count_is_payload_length (f : source_file) (event : Event)
    (table : Table) :
  statusCode (entry_point f event table) = 200 ->
  count_is_length (entry_point f event table).
Proof.
  destruct (entry_point_routes f) as (routes & -> & Hall & _).
  pose proof (dispatch_cases routes event table) as Hd.
  destruct (Shared.get_route (route_key event) routes) as [h|] eqn:Hr;
    rewrite Hd.
  - apply get_route_In in Hr. rewrite Forall_forall in Hall.
    destruct (Hall h Hr) as (Hc & _). apply Hc.
  - discriminate.
Qed.

Lemma success_count_is_payload_length_witness :
  statusCode (entry_point lambda_function_py sample_event sample_table) = 200
  /\ count_is_length (entry_point lambda_function_py sample_event sample_table).
Proof.
  split; [reflexivity|].
  apply (success_count_is_payload_length lambda_function_py sample_event
           sample_table).
  reflexivity.
Defined.

(** C10: on both entry points, an event without [httpMethod] is routed as
    a [GET] and an event without [resource] as the template [/]; the empty
    event reaches the root handler, which lists the whole table (or reports
    the failure of the store), and its status is never 404. *)
Theorem missing_method_and_resource_default (f : source_file)
    (method path : option string)
    (path_params query_params : option (list (string * option string)))
    (table : Table) :
  entry_point f (mkEvent None path path_params query_params) table
  = entry_point f (mkEvent (Some "GET") path path_params query_params) table
  /\ entry_point f (mkEvent method None path_params query_params) table
     = entry_point f (mkEvent method (Some "/") path_params query_params) table
  /\ entry_point f empty_event table = Shared.handle_root empty_event table
  /\ entry_point f empty_event table
     = match outage table with
       | None =>
           create_response 200
             (VDict [("data", value_of_items (map full_item (rows table)));
                     ("count", len (rows table))]) None
       | Some cause =>
           create_error_response 500
             ("Failed to retrieve data: Database query failed: " ++ cause)
             None
       end
  /\ statusCode (entry_point f empty_event table) <> 404.
Proof.
  destruct (entry_point_routes f) as (routes & Hf & Hall & Hroutes).
  rewrite Hf. rewrite Forall_forall in Hall.
  assert (Hsame : forall e e',
             route_key e = route_key e' ->
             pathParameters e = pathParameters e' ->
             queryStringParameters e = queryStringParameters e' ->
             Shared.dispatch routes e table = Shared.dispatch routes e' table).
  { intros e e' Hk Hp Hq.
    pose proof (dispatch_cases routes e table) as Hd.
    pose proof (dispatch_cases routes e' table) as Hd'.
    rewrite <- Hk in Hd'.
    destruct (Shared.get_route (route_key e) routes) as [h|] eqn:Hr.
    - rewrite Hd, Hd'. apply get_route_In in Hr.
      destruct (Hall h Hr) as (_ & _ & Hread). apply Hread; assumption.
    - rewrite Hd, Hd'. reflexivity. }
  assert (Hroot : Shared.dispatch routes empty_event table
                  = Shared.handle_root empty_event table).
  { subst routes. destruct f; reflexivity. }
  split; [apply Hsame; reflexivity|].
  split; [apply Hsame; reflexivity|].
  split; [exact Hroot|].
  rewrite Hroot. unfold Shared.handle_root, query_all_devices, scan.
  destruct (outage table) as [cause|]; simpl.
  - split; [reflexivity | discriminate].
  - unfold len. rewrite length_map. split; [reflexivity | discriminate].
Qed.

(** ** Sorting *)

Section Sorting.

Context {A : Type}.
Variable le : A -> A -> bool.

Lemma insert_permutation (x : A) (l : list A) :
  Permutation (x :: l) (insert le x l).
Proof.
  induction l as [|y l IH]; simpl.
  - apply Permutation_refl.
  - destruct (le x y).
    + apply Permutation_refl.
    + apply perm_trans with (y :: x :: l); [apply perm_swap|].
      apply perm_skip, IH.
Qed.

Lemma sort_by_permutation (l : list A) : Permutation l (sort_by le l).
Proof.
  induction l as [|x l IH]; simpl.
  - apply perm_nil.
  - apply perm_trans with (x :: sort_by le l).
    + apply perm_skip, IH.
    + apply insert_permutation.
Qed.

Hypothesis le_total : forall x y, le x y = true \/ le y x = true.

Lemma insert_sorted (x : A) (l : list A) :
  Sorted (fun a b => le a b = true) l ->
  Sorted (fun a b => le a b = true) (insert le x l).
Proof.
  induction l as [|y l IH]; simpl; intros Hs.
  - repeat constructor.
  - destruct (le x y) eqn:E.
    + constructor; [assumption|]. constructor. exact E.
    + inversion Hs as [|? ? Hl Hy]; subst.
      constructor; [apply IH; assumption|].
      destruct l as [|z l]; simpl.
      * constructor. destruct (le_total x y); congruence.
      * destruct (le x z).
        -- constructor. destruct (le_total x y); congruence.
        -- inversion Hy; subst. constructor. assumption.
Qed.

Lemma sort_by_sorted (l : list A) :
  Sorted (fun a b => le a b = true) (sort_by le l).
Proof.
  induction l as [|x l IH]; simpl.
  - constructor.
  - apply insert_sorted, IH.
Qed.

Hypothesis le_trans :
  forall x y z, le x y = true -> le y z = true -> le x z = true.

Lemma sort_by_strongly_sorted (l : list A) :
  StronglySorted (fun a b => le a b = true) (sort_by le l).
Proof.
  apply Sorted_StronglySorted; [|apply sort_by_sorted].
  intros x y z. apply le_trans.
Qed.

Lemma insert_below_all (x : A) (l : list A) :
  Forall (fun z => le x z = true) l -> insert le x l = x :: l.
Proof.
  intros H. destruct H as [|z l Hz _]; simpl; [reflexivity|].
  rewrite Hz. reflexivity.
Qed.

(** Filtering commutes with the insertion into a sorted list: the sort is
    stable. *)
Lemma filter_insert (p : A -> bool) (x : A) (l : list A) :
  StronglySorted (fun a b => le a b = true) l ->
  filter p (insert le x l)
  = if p x then insert le x (filter p l) else filter p l.
Proof.
  induction l as [|y l IH]; intros Hs.
  - simpl. destruct (p x); reflexivity.
  - inversion Hs as [|? ? Hl Hy]; subst. simpl.
    destruct (le x y) eqn:E.
    + change (filter p (x :: y :: l))
        with (if p x then x :: filter p (y :: l) else filter p (y :: l)).
      destruct (p x); [|reflexivity].
      symmetry. apply insert_below_all.
      apply Forall_forall. intros z Hz. apply filter_In in Hz as [Hz _].
      destruct Hz as [<-|Hz]; [exact E|].
      rewrite Forall_forall in Hy. eapply le_trans; [exact E | auto].
    + simpl. rewrite (IH Hl).
      destruct (p y), (p x); simpl; rewrite ?E; reflexivity.
Qed.

Lemma filter_sort_by (p : A -> bool) (l : list A) :
  filter p (sort_by le l) = sort_by le (filter p l).
Proof.
  induction l as [|x l IH]; simpl; [reflexivity|].
  rewrite filter_insert by apply sort_by_strongly_sorted.
  rewrite IH. destruct (p x); reflexivity.
Qed.

End Sorting.

Lemma filter_permutation {A : Type} (f : A -> bool) (l l' : list A) :
  Permutation l l' -> Permutation (filter f l) (filter f l').
Proof.
  induction 1 as [|x l l' _ IH|x y l|l l' l'' _ IH1 _ IH2]; simpl.
  - apply perm_nil.
  - destruct (f x); [apply perm_skip|]; exact IH.
  - destruct (f x), (f y); try apply Permutation_refl. apply perm_swap.
  - eapply perm_trans; eassumption.
Qed.

Lemma filter_twice {A : Type} (f g : A -> bool) (l : list A) :
  filter g (filter f l) = filter (fun x => f x && g x) l.
Proof.
  induction l as [|x l IH]; simpl; [reflexivity|].
  destruct (f x); simpl; [destruct (g x)|]; rewrite IH; reflexivity.
Qed.

(** ** Lexicographic order *)

Lemma ascii_compare_refl (a : ascii) : Ascii.compare a a = Datatypes.Eq.
Proof. unfold Ascii.compare. apply N.compare_refl. Qed.

Lemma ascii_compare_lt_trans (a b c : ascii) :
  Ascii.compare a b = Lt -> Ascii.compare b c = Lt -> Ascii.compare a c = Lt.
Proof.
  unfold Ascii.compare. rewrite !N.compare_lt_iff. apply N.lt_trans.
Qed.

Lemma string_compare_le_trans (s1 : string) :
  forall s2 s3,
    String.compare s1 s2 <> Gt -> String.compare s2 s3 <> Gt ->
    String.compare s1 s3 <> Gt.
Proof.
  induction s1 as [|a s1 IH]; intros [|b s2] [|c s3]; simpl;
    try congruence.
  destruct (Ascii.compare a b) eqn:E1; try congruence;
    destruct (Ascii.compare b c) eqn:E2; try congruence.
  - apply Ascii.compare_eq_iff in E1, E2. subst.
    rewrite ascii_compare_refl. apply IH.
  - apply Ascii.compare_eq_iff in E1. subst. rewrite E2. congruence.
  - apply Ascii.compare_eq_iff in E2. subst. rewrite E1. congruence.
  - rewrite (ascii_compare_lt_trans a b c E1 E2). congruence.
Qed.

Lemma lex_le_trans (a b c : string) : lex_le a b -> lex_le b c -> lex_le a c.
Proof.
  unfold lex_le, String.leb. intros H1 H2.
  pose proof (string_compare_le_trans a b c) as H.
  destruct (String.compare a b); try discriminate;
    destruct (String.compare b c); try discriminate;
    destruct (String.compare a c); try reflexivity;
    exfalso; apply H; congruence.
Qed.

(** [sorted(set(xs))]: the distinct elements of [xs] in ascending order. *)
Lemma sorted_set_listing (xs : list string) :
  spec_listing (sorted (set xs)) /\ forall x, In x (sorted (set xs)) <-> In x xs.
Proof.
  unfold sorted, set. repeat split.
  - eapply Permutation_NoDup; [apply sort_by_permutation|].
    apply NoDup_nodup.
  - apply Sorted_StronglySorted.
    + intros a b c. apply lex_le_trans.
    + apply (sort_by_sorted String.leb String.leb_total).
  - intros H. rewrite <- (nodup_In string_dec).
    eapply Permutation_in; [|exact H].
    apply Permutation_sym, sort_by_permutation.
  - intros H. rewrite <- (nodup_In string_dec) in H.
    eapply Permutation_in; [|exact H]. apply sort_by_permutation.
Qed.

(** ** The store *)

Lemma query_returns (table : Table) (params : QueryParams) (pk sk : string) :
  outage table = None ->
  key_schema (IndexName params) = Some (pk, sk) ->
  key_condition_ok pk sk (KeyConditionExpression params) = true ->
  query table params
  = Ok (map (project (ProjectionExpression params))
          (filter (passes (FilterExpression params))
             (sort_by by_timestamp
                (filter (holds (KeyConditionExpression params))
                   (rows table))))).
Proof.
  intros Ho Hs Hk. unfold query. rewrite Ho, Hs, Hk. reflexivity.
Qed.

Lemma query_raises (table : Table) (params : QueryParams) (cause : string) :
  outage table = Some cause -> query table params = Raise cause.
Proof. intros Ho. unfold query. rewrite Ho. reflexivity. Qed.

(** The records that a query selects: those of the table that meet the key
    condition and the post-filter. *)
Lemma selected_records (key post : TelemetryRecord -> bool)
    (records : list TelemetryRecord) (r : TelemetryRecord) :
  In r (filter post (sort_by by_timestamp (filter key records)))
  <-> In r records /\ key r = true /\ post r = true.
Proof.
  rewrite filter_In. split.
  - intros [Hin Hp].
    apply (Permutation_in r (Permutation_sym (sort_by_permutation _ _))) in Hin.
    apply filter_In in Hin. tauto.
  - intros (Hin & Hk & Hp). split; [|assumption].
    apply (Permutation_in r (sort_by_permutation _ _)).
    apply filter_In. tauto.
Qed.

Lemma getitem_projected_room_id (records : list TelemetryRecord) :
  mapM (getitem "room_id") (map (project (Some "room_id")) records)
  = Ok (map rec_room_id records).
Proof.
  induction records as [|r records IH]; simpl; [reflexivity|].
  rewrite IH. reflexivity.
Qed.

Lemma getitem_projected_device_id (records : list TelemetryRecord) :
  mapM (getitem "device_id") (map (project (Some "device_id")) records)
  = Ok (map rec_device_id records).
Proof.
  induction records as [|r records IH]; simpl; [reflexivity|].
  rewrite IH. reflexivity.
Qed.

(** ** Listings *)

Lemma get_unique_devices_returns (table : Table) :
  outage table = None ->
  get_unique_devices table = Ok (sorted (set (map rec_device_id (rows table)))).
Proof.
  intros Ho. unfold get_unique_devices, scan. rewrite Ho. simpl.
  rewrite getitem_projected_device_id. reflexivity.
Qed.

Lemma get_unique_rooms_returns (table : Table) :
  outage table = None ->
  get_unique_rooms table = Ok (sorted (set (map rec_room_id (rows table)))).
Proof.
  intros Ho. unfold get_unique_rooms, scan. rewrite Ho. simpl.
  rewrite getitem_projected_room_id. reflexivity.
Qed.

Lemma query_device_room_info_returns (table : Table) (device_id : string) :
  outage table = None ->
  LambdaFunction.query_device_room_info table (Some device_id)
  = Ok (sorted (set (map rec_room_id
                       (filter (fun _ => true)
                          (sort_by by_timestamp
                             (filter (fun r => String.eqb (rec_device_id r)
                                                 device_id)
                                (rows table))))))).
Proof.
  intros Ho. unfold LambdaFunction.query_device_room_info.
  rewrite (query_returns table
             (LambdaFunction.query_device_room_info_request (Some device_id))
             "device_id" "timestamp" Ho eq_refl eq_refl).
  simpl. rewrite getitem_projected_room_id. reflexivity.
Qed.

Lemma get_devices_in_room_returns (table : Table) (room_id : string) :
  outage table = None ->
  get_devices_in_room table (Some room_id)
  = Ok (map (fun device => VDict [("device_id", VStr device)])
          (sorted (set (map rec_device_id
                          (filter (fun _ => true)
                             (sort_by by_timestamp
                                (filter (fun r => String.eqb (rec_room_id r)
                                                    room_id)
                                   (rows table)))))))).
Proof.
  intros Ho. unfold get_devices_in_room.
  rewrite (query_returns table (get_devices_in_room_request (Some room_id))
             "room_id" "timestamp" Ho eq_refl eq_refl).
  simpl. rewrite getitem_projected_device_id. reflexivity.
Qed.

(** C9: on a table that answers, each of the four listings returns a
    sequence of identifiers without duplicates and in ascending
    lexicographic order, made of exactly the identifiers found in the
    records concerned; this for every table, one device in several rooms
    included.  The devices of a room come wrapped one by one in an object
    [{'device_id': ...}], in that order. *)
Theorem listings_are_sorted_and_duplicate_free (table : Table)
    (device_id room_id : string) :
  outage table = None ->
  (exists ids,
      get_unique_devices table = Ok ids /\ spec_listing ids
      /\ forall d, In d ids
                   <-> exists r, In r (rows table) /\ rec_device_id r = d)
  /\ (exists ids,
         get_unique_rooms table = Ok ids /\ spec_listing ids
         /\ forall x, In x ids
                      <-> exists r, In r (rows table) /\ rec_room_id r = x)
  /\ (exists ids,
         LambdaFunction.query_device_room_info table (Some device_id) = Ok ids
         /\ spec_listing ids
         /\ forall x, In x ids
                      <-> exists r, In r (rows table)
                                    /\ rec_device_id r = device_id
                                    /\ rec_room_id r = x)
  /\ (exists ids,
         get_devices_in_room table (Some room_id)
         = Ok (map (fun device => VDict [("device_id", VStr device)]) ids)
         /\ spec_listing ids
         /\ forall d, In d ids
                      <-> exists r, In r (rows table)
                                    /\ rec_room_id r = room_id
                                    /\ rec_device_id r = d).
Proof.
  intros Ho. repeat split.
  - eexists. split; [apply get_unique_devices_returns, Ho|].
    split; [apply sorted_set_listing|]. intros d.
    rewrite (proj2 (sorted_set_listing _)), in_map_iff.
    split; intros (r & H1 & H2); exists r; tauto.
  - eexists. split; [apply get_unique_rooms_returns, Ho|].
    split; [apply sorted_set_listing|]. intros x.
    rewrite (proj2 (sorted_set_listing _)), in_map_iff.
    split; intros (r & H1 & H2); exists r; tauto.
  - eexists. split; [apply query_device_room_info_returns, Ho|].
    split; [apply sorted_set_listing|]. intros x.
    rewrite (proj2 (sorted_set_listing _)), in_map_iff.
    split; intros (r & H1 & H2); exists r.
    + apply selected_records in H2 as (Hin & Hk & _).
      apply String.eqb_eq in Hk. tauto.
    + destruct H2 as [Hd Hx]. split; [assumption|].
      apply selected_records. rewrite String.eqb_eq. tauto.
  - eexists. split; [apply get_devices_in_room_returns, Ho|].
    split; [apply sorted_set_listing|]. intros d.
    rewrite (proj2 (sorted_set_listing _)), in_map_iff.
    split; intros (r & H1 & H2); exists r.
    + apply selected_records in H2 as (Hin & Hk & _).
      apply String.eqb_eq in Hk. tauto.
    + destruct H2 as [Hr Hd]. split; [assumption|].
      apply selected_records. rewrite String.eqb_eq. tauto.
Qed.

Lemma listings_are_sorted_and_duplicate_free_witness :
  outage sample_table = None
  /\ exists ids,
      LambdaFunction.query_device_room_info sample_table (Some "sensor_01")
      = Ok ids
      /\ spec_listing ids.
Proof.
  split; [reflexivity|].
  destruct (listings_are_sorted_and_duplicate_free sample_table "sensor_01"
              "room_001" eq_refl) as (_ & _ & (ids & H1 & H2 & _) & _).
  exists ids. split; assumption.
Defined.

Lemma listings_of_sample_table :
  get_unique_devices sample_table = Ok ["sensor_01"; "sensor_02"]
  /\ get_unique_rooms sample_table = Ok ["room_001"; "room_002"]
  /\ LambdaFunction.query_device_room_info sample_table (Some "sensor_01")
     = Ok ["room_001"; "room_002"]
  /\ get_devices_in_room sample_table (Some "room_001")
     = Ok [VDict [("device_id", VStr "sensor_01")];
           VDict [("device_id", VStr "sensor_02")]].
Proof. repeat split. Qed.

(** ** The two strategies of the device and room intersection *)

Lemma strategies_select_alike (records : list TelemetryRecord)
    (key1 post1 key2 post2 : TelemetryRecord -> bool) :
  (forall r, key1 r && post1 r = key2 r && post2 r) ->
  Permutation
    (map full_item (filter post1 (sort_by by_timestamp (filter key1 records))))
    (map full_item (filter post2 (sort_by by_timestamp (filter key2 records)))).
Proof.
  intros H. apply Permutation_map.
  apply perm_trans with (filter post1 (filter key1 records)).
  { apply filter_permutation, Permutation_sym, sort_by_permutation. }
  apply perm_trans with (filter post2 (filter key2 records)).
  2: { apply filter_permutation, sort_by_permutation. }
  rewrite !filter_twice, (filter_ext _ _ H). apply Permutation_refl.
Qed.

Ltac bounds_cases start_time end_time status :=
  destruct start_time as [start_time|], end_time as [end_time|],
    status as [status|]; cbn [truthy];
  repeat match goal with
    | |- context [String.eqb ?x ""] => destruct (String.eqb x "")
    end;
  cbn [negb andb].

Lemma device_key_condition_ok (device_id room_id : string)
    (start_time end_time status : option string) :
  key_condition_ok "device_id" "timestamp"
    (KeyConditionExpression
       (LambdaFunction.query_device_in_specific_room_request (Some device_id)
          (Some room_id) start_time end_time status)) = true.
Proof.
  unfold LambdaFunction.query_device_in_specific_room_request.
  bounds_cases start_time end_time status; reflexivity.
Qed.

Lemma room_key_condition_ok (device_id room_id : string)
    (start_time end_time status : option string) :
  key_condition_ok "room_id" "timestamp"
    (KeyConditionExpression
       (query_room_device_specific_request (Some room_id) (Some device_id)
          start_time end_time status)) = true.
Proof.
  unfold query_room_device_specific_request.
  bounds_cases start_time end_time status; reflexivity.
Qed.

Ltac atoms :=
  repeat match goal with
    | |- context [String.eqb ?a ?b] => destruct (String.eqb a b)
    | |- context [String.leb ?a ?b] => destruct (String.leb a b)
    end.

(** Key condition and post-filter together are the same predicate on
    records under both strategies. *)
Lemma intersection_conditions_agree (device_id room_id : string)
    (start_time end_time status : option string) (r : TelemetryRecord) :
  let by_device :=
    LambdaFunction.query_device_in_specific_room_request (Some device_id)
      (Some room_id) start_time end_time status in
  let by_room :=
    query_room_device_specific_request (Some room_id) (Some device_id)
      start_time end_time status in
  holds (KeyConditionExpression by_device) r
  && passes (FilterExpression by_device) r
  = holds (KeyConditionExpression by_room) r
    && passes (FilterExpression by_room) r.
Proof.
  unfold LambdaFunction.query_device_in_specific_room_request,
    query_room_device_specific_request.
  bounds_cases start_time end_time status; simpl; atoms; reflexivity.
Qed.

Lemma intersection_conditions_bind (device_id room_id : string)
    (start_time end_time status : option string) (r : TelemetryRecord) :
  let by_device :=
    LambdaFunction.query_device_in_specific_room_request (Some device_id)
      (Some room_id) start_time end_time status in
  holds (KeyConditionExpression by_device) r = true ->
  passes (FilterExpression by_device) r = true ->
  rec_device_id r = device_id /\ rec_room_id r = room_id.
Proof.
  unfold LambdaFunction.query_device_in_specific_room_request.
  bounds_cases start_time end_time status; simpl;
    rewrite ?andb_true_iff, ?String.eqb_eq; tauto.
Qed.

Lemma by_timestamp_total (r1 r2 : TelemetryRecord) :
  by_timestamp r1 r2 = true \/ by_timestamp r2 r1 = true.
Proof. apply String.leb_total. Qed.

Lemma by_timestamp_trans (r1 r2 r3 : TelemetryRecord) :
  by_timestamp r1 r2 = true -> by_timestamp r2 r3 = true ->
  by_timestamp r1 r3 = true.
Proof. apply lex_le_trans. Qed.

(** With ties between equal timestamps kept in the order of the table, the
    two strategies return the same sequence. *)
Lemma strategies_select_same_sequence (records : list TelemetryRecord)
    (key1 post1 key2 post2 : TelemetryRecord -> bool) :
  (forall r, key1 r && post1 r = key2 r && post2 r) ->
  filter post1 (sort_by by_timestamp (filter key1 records))
  = filter post2 (sort_by by_timestamp (filter key2 records)).
Proof.
  intros H.
  rewrite <- !(filter_sort_by by_timestamp by_timestamp_total
                 by_timestamp_trans).
  rewrite !filter_twice. apply filter_ext, H.
Qed.

(** C1: for every table, device, room and optional bounds and status, the
    query on the device partition with the room as post-filter and the
    query on the room index with the device as post-filter return the same
    items: the same sequence, hence each item as many times in one result
    as in the other and the same set; every item returned is of the
    requested device and room.  When the store fails, both calls raise. *)
Theorem intersection_strategies_agree (table : Table)
    (device_id room_id : string) (start_time end_time status : option string) :
  match
    LambdaFunction.query_device_in_specific_room table (Some device_id)
      (Some room_id) start_time end_time status,
    query_room_device_specific table (Some room_id) (Some device_id)
      start_time end_time status
  with
  | Ok by_device, Ok by_room =>
      by_device = by_room
      /\ Permutation by_device by_room
      /\ (forall item, In item by_device <-> In item by_room)
      /\ (forall item,
             In item by_device ->
             item_device_id item = Some device_id
             /\ item_room_id item = Some room_id)
  | Raise _, Raise _ => outage table <> None
  | _, _ => False
  end.
Proof.
  unfold LambdaFunction.query_device_in_specific_room,
    query_room_device_specific.
  destruct (outage table) as [cause|] eqn:Ho.
  - rewrite !(query_raises table _ cause Ho). simpl. discriminate.
  - rewrite (query_returns table
               (LambdaFunction.query_device_in_specific_room_request
                  (Some device_id) (Some room_id) start_time end_time status)
               "device_id" "timestamp" Ho eq_refl
               (device_key_condition_ok _ _ _ _ _)).
    rewrite (query_returns table
               (query_room_device_specific_request (Some room_id)
                  (Some device_id) start_time end_time status)
               "room_id" "timestamp" Ho eq_refl
               (room_key_condition_ok _ _ _ _ _)).
    cbn [reraise].
    pose proof (strategies_select_alike (rows table) _ _ _ _
                  (intersection_conditions_agree device_id room_id start_time
                     end_time status)) as Hperm.
    assert (Hproj : ProjectionExpression
                      (LambdaFunction.query_device_in_specific_room_request
                         (Some device_id) (Some room_id) start_time end_time
                         status) = None) by reflexivity.
    assert (Hproj' : ProjectionExpression
                       (query_room_device_specific_request (Some room_id)
                          (Some device_id) start_time end_time status) = None)
      by reflexivity.
    rewrite Hproj, Hproj'. cbn [project].
    change (fun r : TelemetryRecord => full_item r) with full_item.
    split.
    { f_equal. apply strategies_select_same_sequence.
      apply (intersection_conditions_agree device_id room_id start_time
               end_time status). }
    split; [exact Hperm|]. split.
    + intros item. split; intros H.
      * eapply Permutation_in; [exact Hperm | exact H].
      * eapply Permutation_in; [apply Permutation_sym, Hperm | exact H].
    + intros item H. apply in_map_iff in H as (r & <- & Hin).
      apply selected_records in Hin as (_ & Hk & Hp).
      destruct (intersection_conditions_bind device_id room_id start_time
                  end_time status r Hk Hp) as [Hd Hr].
      simpl. split; congruence.
Qed.

Lemma intersection_on_sample_table :
  LambdaFunction.query_device_in_specific_room sample_table (Some "sensor_01")
    (Some "room_001") None None None
  = query_room_device_specific sample_table (Some "room_001")
      (Some "sensor_01") None None None
  /\ query_room_device_specific sample_table (Some "room_001")
       (Some "sensor_01") None None (Some "ok")
     = Ok [mkItem (Some "sensor_01") (Some "room_001")
             (Some "2025-08-01T00:00:00Z") (Some (Some (215, -1)))
             (Some "ok")].
Proof. split; reflexivity. Qed.

(** ** Time ranges *)

Lemma full_partition_is_read (table : Table) (device_id : string) :
  outage table = None ->
  query_device_by_id table (Some device_id) None None None
  = Ok (map full_item
          (sort_by by_timestamp
             (filter (fun r => String.eqb (rec_device_id r) device_id)
                (rows table)))).
Proof.
  intros Ho. unfold query_device_by_id.
  rewrite (query_returns table
             (query_device_by_id_request (Some device_id) None None None)
             "device_id" "timestamp" Ho eq_refl eq_refl).
  simpl. rewrite filter_true. reflexivity.
Qed.



(** * Further properties *)

(** ** [decimal_to_float] *)

Lemma existsb_map_false {A B : Type} (f : A -> B) (g : B -> bool)
    (l : list A) :
  Forall (fun x => g (f x) = false) l -> existsb g (map f l) = false.
Proof.
  induction 1 as [|x l Hx _ IH]; simpl; [reflexivity|].
  rewrite Hx, IH. reflexivity.
Qed.

Lemma map_fixed_Forall {A : Type} (f : A -> A) (l : list A) :
  Forall (fun x => f x = x) l -> map f l = l.
Proof.
  induction 1 as [|x l Hx _ IH]; simpl; [reflexivity|].
  rewrite Hx, IH. reflexivity.
Qed.

Lemma decimal_to_float_has_no_decimal (v : value) :
  has_decimal (decimal_to_float v) = false.
Proof.
  induction v as [| | | | |items IH|entries IH] using value_induction;
    simpl; try reflexivity.
  - apply existsb_map_false. exact IH.
  - apply existsb_map_false.
    eapply Forall_impl; [|exact IH]. intros [k x]. simpl. auto.
Qed.

Lemma decimal_to_float_fixes (v : value) :
  has_decimal v = false -> decimal_to_float v = v.
Proof.
  induction v as [| | | | |items IH|entries IH] using value_induction;
    simpl; intros H; try reflexivity; try discriminate.
  - f_equal. apply map_fixed_Forall.
    rewrite Forall_forall in *. intros x Hx. apply IH; [assumption|].
    destruct (has_decimal x) eqn:E; [|reflexivity].
    rewrite <- H. symmetry. apply existsb_exists. exists x. tauto.
  - f_equal. apply map_fixed_Forall.
    rewrite Forall_forall in *. intros [k x] Hx. f_equal.
    apply (IH (k, x) Hx). simpl.
    destruct (has_decimal x) eqn:E; [|reflexivity].
    rewrite <- H. symmetry. apply existsb_exists. exists (k, x). tauto.
Qed.

(** X1: after [decimal_to_float] no [Decimal] is left anywhere in the
    value, at any depth of lists and dictionaries, and a second pass
    changes nothing. *)
Theorem decimal_to_float_removes_every_decimal (v : value) :
  has_decimal (decimal_to_float v) = false
  /\ decimal_to_float (decimal_to_float v) = decimal_to_float v.
Proof.
  split; [apply decimal_to_float_has_no_decimal|].
  apply decimal_to_float_fixes, decimal_to_float_has_no_decimal.
Qed.

(** X2: a value without any [Decimal] goes through [decimal_to_float]
    unchanged. *)
Theorem decimal_to_float_keeps_plain_values (v : value) :
  has_decimal v = false -> decimal_to_float v = v.
Proof. apply decimal_to_float_fixes. Qed.

Lemma decimal_to_float_keeps_plain_values_witness :
  has_decimal (VDict [("rooms", VList [VStr "room_001"]); ("count", VInt 1)])
  = false
  /\ decimal_to_float
       (VDict [("rooms", VList [VStr "room_001"]); ("count", VInt 1)])
     = VDict [("rooms", VList [VStr "room_001"]); ("count", VInt 1)].
Proof.
  split; [reflexivity|].
  apply (decimal_to_float_keeps_plain_values
           (VDict [("rooms", VList [VStr "room_001"]); ("count", VInt 1)])).
  reflexivity.
Defined.

(** ** The shape of a response *)

Lemma validate_params_refused (params : list (string * option string))
    (validators : list (string * (string -> bool))) (errors : list string) :
  validate_params params validators = (false, errors) -> errors <> [].
Proof.
  unfold validate_params. intros H. injection H as Hlen <-.
  intros E. rewrite E in Hlen. discriminate.
Qed.

Lemma decimal_to_float_strings (xs : list string) :
  map decimal_to_float (map VStr xs) = map VStr xs.
Proof.
  induction xs as [|x xs IH]; simpl; [reflexivity|].
  rewrite IH. reflexivity.
Qed.

Lemma absent_key_stays_absent (key : string) (entries : list (string * value)) :
  get key entries = None ->
  get key
    (map (fun kv : string * value =>
            let (k, v) := kv in (k, decimal_to_float v)) entries)
  = None.
Proof.
  induction entries as [|[k v] entries IH]; simpl; [reflexivity|].
  destruct (String.eqb k key); [discriminate|]. exact IH.
Qed.

Lemma success_well_shaped (entries : list (string * value)) :
  get "error" entries = None -> get "details" entries = None ->
  well_shaped (create_response 200 (VDict entries) None).
Proof.
  intros He Hd.
  pose proof (fun key => absent_key_stays_absent key entries) as G.
  unfold well_shaped. split; [reflexivity|].
  split; [apply decimal_to_float_has_no_decimal|].
  unfold error_message, error_details. simpl.
  rewrite (G _ He), (G _ Hd).
  repeat split; intros; try discriminate; try reflexivity; congruence.
Qed.

Lemma failure_well_shaped (status_code : Z) (message : string) :
  status_code <> 200 -> status_code <> 400 ->
  well_shaped (create_error_response status_code message None).
Proof.
  intros H2 H4. unfold well_shaped. split; [reflexivity|].
  split; [apply decimal_to_float_has_no_decimal|]. simpl.
  repeat split; intros; try congruence; try reflexivity.
  exists message. reflexivity.
Qed.

Lemma refusal_well_shaped (message : string) (errors : list string) :
  errors <> [] ->
  message = "Validation failed"
  \/ message = "Query parameter validation failed" ->
  well_shaped (create_error_response 400 message (Some errors)).
Proof.
  intros Hne Hm. destruct errors as [|e es]; [congruence|].
  unfold well_shaped. split; [reflexivity|].
  split; [apply decimal_to_float_has_no_decimal|]. simpl.
  rewrite decimal_to_float_strings.
  repeat split; intros; try discriminate; try congruence.
  - exists message. reflexivity.
  - exists (e :: es). split; [discriminate|]. split; [reflexivity|].
    destruct Hm as [-> | ->]; [left | right]; reflexivity.
Qed.

Create HintDb queries.
#[local] Hint Unfold query_all_devices get_unique_devices get_unique_rooms
  query_device_by_id query_room_by_id get_devices_in_room
  query_room_device_specific LambdaFunction.query_device_room_info
  LambdaFunction.query_device_in_specific_room : queries.

(** The two validations of a handler, a failed one with its messages. *)
Ltac expose_validations :=
  autounfold with handlers; cbv zeta;
  repeat match goal with
    | |- context [validate_params ?p ?v] =>
        let H := fresh "Hv" in
        destruct (validate_params p v) as [[|] ?errors] eqn:H; cbn [negb];
        [| apply validate_params_refused in H ]
    end.

Ltac handler_well_shaped :=
  unfold always_well_shaped; intros event table; expose_validations;
  try split_on_query;
  first
    [ apply success_well_shaped; reflexivity
    | apply refusal_well_shaped; [assumption | auto]
    | apply failure_well_shaped; discriminate ].

Ltac handler_guards_the_store :=
  unfold guards_the_store; split;
  [ intros event table table'; expose_validations;
    repeat split_on_query;
    cbn [statusCode create_error_response create_response];
    first [ discriminate | reflexivity ]
  | intros event table cause Ho; expose_validations;
    autounfold with queries; try unfold query; try unfold scan;
    rewrite ?Ho;
    cbn [reraise bind statusCode create_error_response create_response];
    discriminate ].

Section SharedHandlersShape.

Variables validate_room_id validate_timestamp validate_status : string -> bool.

Lemma handle_root_shape :
  always_well_shaped Shared.handle_root /\ guards_the_store Shared.handle_root.
Proof. split; [handler_well_shaped | handler_guards_the_store]. Qed.

Lemma handle_devices_list_shape :
  always_well_shaped Shared.handle_devices_list
  /\ guards_the_store Shared.handle_devices_list.
Proof. split; [handler_well_shaped | handler_guards_the_store]. Qed.

Lemma handle_rooms_list_shape :
  always_well_shaped Shared.handle_rooms_list
  /\ guards_the_store Shared.handle_rooms_list.
Proof. split; [handler_well_shaped | handler_guards_the_store]. Qed.

Lemma handle_device_detail_shape :
  always_well_shaped
    (Shared.handle_device_detail validate_timestamp validate_status)
  /\ guards_the_store
       (Shared.handle_device_detail validate_timestamp validate_status).
Proof. split; [handler_well_shaped | handler_guards_the_store]. Qed.

Lemma handle_room_detail_shape :
  always_well_shaped
    (Shared.handle_room_detail validate_room_id validate_timestamp)
  /\ guards_the_store
       (Shared.handle_room_detail validate_room_id validate_timestamp).
Proof. split; [handler_well_shaped | handler_guards_the_store]. Qed.

Lemma handle_room_devices_shape :
  always_well_shaped (Shared.handle_room_devices validate_room_id)
  /\ guards_the_store (Shared.handle_room_devices validate_room_id).
Proof. split; [handler_well_shaped | handler_guards_the_store]. Qed.

Lemma handle_room_device_detail_shape :
  always_well_shaped
    (Shared.handle_room_device_detail validate_room_id validate_timestamp
       validate_status)
  /\ guards_the_store
       (Shared.handle_room_device_detail validate_room_id validate_timestamp
          validate_status).
Proof. split; [handler_well_shaped | handler_guards_the_store]. Qed.

End SharedHandlersShape.

Lemma handle_device_rooms_shape :
  always_well_shaped LambdaFunction.handle_device_rooms
  /\ guards_the_store LambdaFunction.handle_device_rooms.
Proof. split; [handler_well_shaped | handler_guards_the_store]. Qed.

Lemma handle_device_room_detail_shape :
  always_well_shaped LambdaFunction.handle_device_room_detail
  /\ guards_the_store LambdaFunction.handle_device_room_detail.
Proof. split; [handler_well_shaped | handler_guards_the_store]. Qed.

Lemma entry_point_shape (f : source_file) :
  exists routes,
    entry_point f = Shared.dispatch routes
    /\ Forall (fun h => always_well_shaped h /\ guards_the_store h)
         (map snd routes).
Proof.
  destruct f; eexists; (split; [reflexivity|]);
    autounfold with routes; cbn [map snd];
    repeat apply Forall_cons; try apply Forall_nil;
    auto using handle_root_shape, handle_devices_list_shape,
      handle_rooms_list_shape, handle_device_detail_shape,
      handle_room_detail_shape, handle_room_devices_shape,
      handle_room_device_detail_shape, handle_device_rooms_shape,
      handle_device_room_detail_shape.
Qed.

Lemma entry_point_well_shaped (f : source_file) (event : Event)
    (table : Table) :
  well_shaped (entry_point f event table).
Proof.
  destruct (entry_point_shape f) as (routes & -> & Hall).
  pose proof (dispatch_cases routes event table) as Hd.
  destruct (Shared.get_route (route_key event) routes) as [h|] eqn:Hr;
    rewrite Hd.
  - apply get_route_In in Hr. rewrite Forall_forall in Hall.
    apply (Hall h Hr).
  - apply failure_well_shaped; discriminate.
Qed.

Lemma entry_point_guards_the_store (f : source_file) :
  guards_the_store (entry_point f).
Proof.
  destruct (entry_point_shape f) as (routes & -> & Hall).
  rewrite Forall_forall in Hall. split.
  - intros event table table'.
    pose proof (dispatch_cases routes event table) as Hd.
    pose proof (dispatch_cases routes event table') as Hd'.
    destruct (Shared.get_route (route_key event) routes) as [h|] eqn:Hr;
      rewrite Hd, Hd'; [|reflexivity].
    apply get_route_In in Hr. apply (Hall h Hr).
  - intros event table cause Ho.
    pose proof (dispatch_cases routes event table) as Hd.
    destruct (Shared.get_route (route_key event) routes) as [h|] eqn:Hr;
      rewrite Hd; [|discriminate].
    apply get_route_In in Hr.
    apply (proj2 (proj2 (Hall h Hr)) event table cause Ho).
Qed.

Lemma entry_point_status (f : source_file) (event : Event) (table : Table) :
  statusCode (entry_point f event table) = 200
  \/ statusCode (entry_point f event table) = 400
  \/ statusCode (entry_point f event table) = 404
  \/ statusCode (entry_point f event table) = 500.
Proof.
  destruct (entry_point_routes f) as (routes & -> & Hall & _).
  pose proof (dispatch_cases routes event table) as Hd.
  destruct (Shared.get_route (route_key event) routes) as [h|] eqn:Hr;
    rewrite Hd.
  - apply get_route_In in Hr. rewrite Forall_forall in Hall.
    destruct (Hall h Hr) as (_ & Hs & _).
    destruct (Hs event table) as [E|[E|E]]; tauto.
  - right. right. left. reflexivity.
Qed.

(** X3: whatever the event and the table, and whatever the status, the
    response of either router carries exactly the four default headers,
    the content type and the three CORS headers. *)
Theorem every_response_has_the_default_headers (f : source_file)
    (event : Event) (table : Table) :
  headers (entry_point f event table) = default_headers
  /\ get "Access-Control-Allow-Origin" (headers (entry_point f event table))
     = Some "*"
  /\ get "Content-Type" (headers (entry_point f event table))
     = Some "application/json".
Proof.
  destruct (entry_point_well_shaped f event table) as (H & _).
  rewrite H. repeat split.
Qed.

(** X4: the body of a response has an [error] message exactly when the
    status is not 200. *)
Theorem error_message_iff_not_success (f : source_file) (event : Event)
    (table : Table) :
  statusCode (entry_point f event table) <> 200
  <-> exists message,
      error_message (body (entry_point f event table)) = Some message.
Proof.
  destruct (entry_point_well_shaped f event table) as (_ & _ & H2 & Hn & _).
  split; [exact Hn|].
  intros (message & Hm) E. rewrite (H2 E) in Hm. discriminate.
Qed.

(** X5: the body of a response has a [details] list exactly when the
    status is 400; the list is then not empty, holds only strings, and the
    message is one of the two validation messages. *)
Theorem details_iff_refusal (f : source_file) (event : Event)
    (table : Table) :
  (statusCode (entry_point f event table) = 400
   <-> exists details,
       error_details (body (entry_point f event table)) = Some details)
  /\ (forall details,
         error_details (body (entry_point f event table)) = Some details ->
         details <> []
         /\ (exists messages, details = map VStr messages)
         /\ (error_message (body (entry_point f event table))
             = Some "Validation failed"
             \/ error_message (body (entry_point f event table))
                = Some "Query parameter validation failed")).
Proof.
  destruct (entry_point_well_shaped f event table)
    as (_ & _ & _ & _ & H4 & Hn).
  assert (Hiff : statusCode (entry_point f event table) = 400
                 <-> exists details,
                     error_details (body (entry_point f event table))
                     = Some details).
  { split.
    - intros E. destruct (H4 E) as (details & _ & Hd & _). eauto.
    - intros (details & Hd).
      destruct (Z.eq_dec (statusCode (entry_point f event table)) 400)
        as [E|E]; [exact E|].
      rewrite (Hn E) in Hd. discriminate. }
  split; [exact Hiff|].
  intros details Hd.
  destruct (H4 (proj2 Hiff (ex_intro _ details Hd)))
    as (messages & Hne & Hd' & Hm).
  rewrite Hd in Hd'. injection Hd' as ->.
  split; [|split; [exists messages; reflexivity | exact Hm]].
  destruct messages; [congruence | discriminate].
Qed.

(** X6: no [Decimal] reaches the body of a response: whatever the event
    and the table, the body that either router hands to the serializer
    has none. *)
Theorem no_decimal_reaches_a_body (f : source_file) (event : Event)
    (table : Table) :
  has_decimal (body (entry_point f event table)) = false.
Proof. apply (entry_point_well_shaped f event table). Qed.

(** X7: a refusal does not depend on the store: when either router
    answers 400 on one table, it gives the same response on every table,
    a failing one included. *)
Theorem refusal_does_not_read_the_store (f : source_file) (event : Event)
    (table table' : Table) :
  statusCode (entry_point f event table) = 400 ->
  entry_point f event table' = entry_point f event table.
Proof. apply (proj1 (entry_point_guards_the_store f)). Qed.

Lemma refusal_does_not_read_the_store_witness :
  statusCode (entry_point lambda_function_py upper_case_status_event
                sample_table) = 400
  /\ entry_point lambda_function_py upper_case_status_event failing_table
     = entry_point lambda_function_py upper_case_status_event sample_table.
Proof.
  split; [reflexivity|].
  apply (refusal_does_not_read_the_store lambda_function_py
           upper_case_status_event sample_table failing_table).
  reflexivity.
Defined.

(** X8: when the store fails, no request is answered 200: the response of
    either router is a 400, a 404 or a 500. *)
Theorem no_success_when_the_store_fails (f : source_file) (event : Event)
    (table : Table) (cause : string) :
  outage table = Some cause ->
  statusCode (entry_point f event table) = 400
  \/ statusCode (entry_point f event table) = 404
  \/ statusCode (entry_point f event table) = 500.
Proof.
  intros Ho.
  pose proof (proj2 (entry_point_guards_the_store f) event table cause Ho)
    as Hn.
  destruct (entry_point_status f event table) as [E|[E|[E|E]]]; tauto.
Qed.

Lemma no_success_when_the_store_fails_witness :
  outage failing_table = Some "ProvisionedThroughputExceededException"
  /\ (statusCode (entry_point main_py sample_event failing_table) = 400
      \/ statusCode (entry_point main_py sample_event failing_table) = 404
      \/ statusCode (entry_point main_py sample_event failing_table) = 500).
Proof.
  split; [reflexivity|].
  apply (no_success_when_the_store_fails main_py sample_event failing_table
           "ProvisionedThroughputExceededException").
  reflexivity.
Defined.

(** ** Methods other than [GET] *)

Lemma routes_are_GET (f : source_file) (key : string * string) :
  In key (map fst match f with
                  | lambda_function_py => LambdaFunction.ROUTE_HANDLERS
                  | main_py => Main.ROUTE_HANDLERS
                  end) ->
  fst key = "GET".
Proof.
  destruct f; simpl; intros H;
    repeat (destruct H as [<-|H]; [reflexivity|]); contradiction.
Qed.

Lemma other_method_not_found (f : source_file) (method : string)
    (path : option string)
    (path_params query_params : option (list (string * option string)))
    (table : Table) :
  method <> "GET" ->
  entry_point f (mkEvent (Some method) path path_params query_params) table
  = create_error_response 404
      ("Route not found: " ++ method ++ " "
       ++ match path with Some p => p | None => "/" end) None.
Proof.
  intros Hm.
  destruct (entry_point_routes f) as (routes & -> & _ & Hroutes).
  pose proof (dispatch_cases routes
                (mkEvent (Some method) path path_params query_params) table)
    as Hd.
  destruct (Shared.get_route _ routes) as [h|] eqn:Hr; [|exact Hd].
  exfalso.
  assert (Hout : ~ In (route_key
                         (mkEvent (Some method) path path_params query_params))
                     (map fst routes)).
  { intros Hin. subst routes. apply (routes_are_GET f) in Hin.
    exact (Hm Hin). }
  apply get_route_None in Hout. congruence.
Qed.

(** X9: a request whose method is not [GET] is never routed: either
    router answers 404 with the message naming the method and the
    template, whatever the template, the parameters and the table. *)
Theorem other_methods_are_not_found (f : source_file) (method : string)
    (path : option string)
    (path_params query_params : option (list (string * option string)))
    (table : Table) :
  method <> "GET" ->
  statusCode
    (entry_point f (mkEvent (Some method) path path_params query_params)
       table) = 404
  /\ error_message
       (body
          (entry_point f (mkEvent (Some method) path path_params query_params)
             table))
     = Some ("Route not found: " ++ method ++ " "
             ++ match path with Some p => p | None => "/" end).
Proof.
  intros Hm.
  rewrite (other_method_not_found f method path path_params query_params
             table Hm).
  split; reflexivity.
Qed.

Lemma other_methods_are_not_found_witness :
  "POST" <> "GET"
  /\ statusCode
       (entry_point lambda_function_py
          (mkEvent (Some "POST") (Some "/devices") None None) sample_table)
     = 404.
Proof.
  split; [discriminate|].
  apply (other_methods_are_not_found lambda_function_py "POST"
           (Some "/devices") None None sample_table).
  discriminate.
Defined.

(** ** More on strings *)

Lemma forall_chars_app (p : ascii -> bool) (s t : string) :
  forall_chars p (s ++ t) = forall_chars p s && forall_chars p t.
Proof.
  induction s as [|a s IH]; simpl; [reflexivity|].
  rewrite IH, andb_assoc. reflexivity.
Qed.

Lemma forall_chars_rev (p : ascii -> bool) (s : string) :
  forall_chars p (rev_string s) = forall_chars p s.
Proof.
  induction s as [|a s IH]; simpl; [reflexivity|].
  rewrite forall_chars_app, IH. simpl.
  rewrite andb_true_r. apply andb_comm.
Qed.

Lemma rev_string_snoc (s : string) (a : ascii) :
  rev_string (s ++ String a EmptyString) = String a (rev_string s).
Proof.
  induction s as [|b s IH]; simpl; [reflexivity|].
  rewrite IH. reflexivity.
Qed.

Lemma rev_string_involutive (s : string) : rev_string (rev_string s) = s.
Proof.
  induction s as [|a s IH]; simpl; [reflexivity|].
  rewrite rev_string_snoc, IH. reflexivity.
Qed.

Lemma rev_string_empty (s : string) :
  rev_string s = EmptyString <-> s = EmptyString.
Proof.
  split; [|intros ->; reflexivity].
  destruct s as [|a s]; [reflexivity|]. simpl.
  destruct (rev_string s); discriminate.
Qed.

(** [lstrip] leaves nothing exactly of the strings made of white space. *)
Lemma lstrip_empty (s : string) :
  lstrip s = EmptyString <-> forall_chars isspace s = true.
Proof.
  induction s as [|a s IH]; simpl; [tauto|].
  destruct (isspace a); simpl; [exact IH|].
  split; discriminate.
Qed.

Lemma lstrip_blank (s : string) :
  forall_chars isspace (lstrip s) = forall_chars isspace s.
Proof.
  induction s as [|a s IH]; simpl; [reflexivity|].
  destruct (isspace a) eqn:E; simpl; [exact IH|].
  rewrite E. reflexivity.
Qed.

Lemma strip_empty (s : string) :
  strip s = EmptyString <-> forall_chars isspace s = true.
Proof.
  unfold strip.
  rewrite rev_string_empty, lstrip_empty, forall_chars_rev, lstrip_blank.
  tauto.
Qed.

Lemma lstrip_head (a : ascii) (s : string) :
  isspace a = false -> lstrip (String a s) = String a s.
Proof. intros H. simpl. rewrite H. reflexivity. Qed.

(** A string without white space at either end is its own [strip]. *)
Lemma strip_fixed (s : string) :
  forall_chars (fun c => negb (isspace c)) s = true -> strip s = s.
Proof.
  intros H. unfold strip.
  assert (L : forall t,
             forall_chars (fun c => negb (isspace c)) t = true ->
             lstrip t = t).
  { intros [|a t]; simpl; [reflexivity|].
    intros Ht. apply andb_prop in Ht as [Ha _].
    apply negb_true_iff in Ha. rewrite Ha. reflexivity. }
  rewrite (L s H), L by (rewrite forall_chars_rev; exact H).
  apply rev_string_involutive.
Qed.

Lemma forall_chars_weaken (p q : ascii -> bool) (s : string) :
  (forall c, p c = true -> q c = true) ->
  forall_chars p s = true -> forall_chars q s = true.
Proof.
  intros Hpq. induction s as [|a s IH]; simpl; [reflexivity|].
  intros H. apply andb_prop in H as [Ha Hs].
  rewrite (Hpq a Ha), (IH Hs). reflexivity.
Qed.

Lemma int_digits_of_decimals (s : string) :
  forall after acc,
    forall_chars isdecimal s = true ->
    (s = EmptyString -> after = true) ->
    int_digits after acc s = Some (decimal_from acc s).
Proof.
  induction s as [|c s IH]; simpl; intros after acc Hd He.
  - rewrite He by reflexivity. reflexivity.
  - apply andb_prop in Hd as [Hc Hs]. rewrite Hc.
    apply IH; [exact Hs | reflexivity].
Qed.

(** [int] reads a string of decimal digits of any length as the number it
    writes. *)
Lemma int_of_decimals (s : string) :
  s <> EmptyString -> forall_chars isdecimal s = true ->
  int s = Some (decimal_value s).
Proof.
  intros Hne Hd. unfold int.
  rewrite strip_fixed.
  2: { apply (forall_chars_weaken isdecimal); [|exact Hd].
       intros c Hc. apply negb_true_iff, isdigit_char_not_space,
         isdecimal_isdigit_char, Hc. }
  destruct s as [|c s]; [congruence|].
  pose proof Hd as Hd'. simpl in Hd'. apply andb_prop in Hd' as [Hc _].
  destruct (isdigit_char_not_sign c (isdecimal_isdigit_char c Hc)) as [P M].
  rewrite P, M. apply int_digits_of_decimals; [exact Hd | discriminate].
Qed.

Lemma str_count_app (c : ascii) (s t : string) :
  str_count c (s ++ t) = (str_count c s + str_count c t)%nat.
Proof.
  induction s as [|a s IH]; simpl; [reflexivity|].
  destruct (Ascii.eqb a c); rewrite IH; reflexivity.
Qed.

Lemma str_count_separated (c : ascii) (p q : string) :
  str_count c (p ++ String c q) = S (str_count c p + str_count c q).
Proof.
  rewrite str_count_app. simpl. rewrite Ascii.eqb_refl. lia.
Qed.

Lemma str_split_separated (c : ascii) (p q : string) :
  str_count c p = 0%nat -> str_count c q = 0%nat ->
  str_split c (p ++ String c q) = [p; q].
Proof.
  intros Hp Hq. induction p as [|a p IH]; simpl.
  - rewrite Ascii.eqb_refl, split_without_separator by assumption.
    reflexivity.
  - simpl in Hp. destruct (Ascii.eqb a c); [discriminate|].
    rewrite (IH Hp). reflexivity.
Qed.

(** ** [validate_device_id] *)

Lemma validate_device_id_exact (s : string) :
  validate_device_id s = true
  <-> exists type num n,
      device_id_parts s type num
      /\ type <> EmptyString /\ int num = Some n /\ 0 < n.
Proof.
  unfold validate_device_id, device_id_parts. split.
  - destruct (Nat.eqb (str_count "_" s) 1) eqn:Hc; simpl; [|discriminate].
    apply Nat.eqb_eq in Hc.
    destruct (split_one_separator _ _ Hc) as (p & q & Hs & Heq).
    rewrite Hs. destruct (int q) as [n|] eqn:Hn; [|discriminate].
    intros H. apply andb_prop in H as [Hlen Hpos].
    exists p, q, n. subst s. rewrite str_count_separated in Hc.
    repeat split; try lia; try assumption.
    intros ->. discriminate.
  - intros (type & num & n & (-> & Ht & Hn) & Hne & Hint & Hpos).
    rewrite str_count_separated, Ht, Hn. simpl.
    rewrite (str_split_separated _ _ _ Ht Hn), Hint.
    apply andb_true_intro. split.
    + destruct type; [congruence | reflexivity].
    + apply Z.gtb_lt. lia.
Qed.

Lemma validate_device_id_of_digits (type digits : string) :
  type <> EmptyString -> str_count "_" type = 0%nat ->
  digits <> EmptyString -> forall_chars isdecimal digits = true ->
  0 < decimal_value digits ->
  validate_device_id (type ++ String "_" digits) = true.
Proof.
  intros Ht Hc Hd Hdec Hpos. apply validate_device_id_exact.
  exists type, digits, (decimal_value digits).
  repeat split; try assumption.
  - clear Hd Hpos. induction digits as [|c digits IH]; simpl; [reflexivity|].
    simpl in Hdec. apply andb_prop in Hdec as [Hdc Hds].
    rewrite (isdigit_char_not_underscore c (isdecimal_isdigit_char c Hdc)).
    apply IH, Hds.
  - apply int_of_decimals; assumption.
Qed.




(** ** The validators of the two files *)

Lemma main_validate_room_id_exact (s : string) :
  Main.validate_room_id s = true <-> forall_chars isspace s = false.
Proof.
  unfold Main.validate_room_id.
  pose proof (strip_empty s) as H.
  destruct (strip s) as [|a t]; simpl.
  - split; [discriminate|]. intros E.
    rewrite (proj1 H eq_refl) in E. discriminate.
  - split; [|reflexivity]. intros _.
    destruct (forall_chars isspace s); [|reflexivity].
    destruct H as [_ H]. discriminate (H eq_refl).
Qed.

(** X12: in [main.py], [validate_room_id] accepts exactly the strings that
    have a character other than white space; the empty string and the
    blank strings are the only ones refused. *)
Theorem main_validate_room_id_accepts_non_blank (s : string) :
  Main.validate_room_id s = true <-> forall_chars isspace s = false.
Proof. apply main_validate_room_id_exact. Qed.

Lemma stricter_status (s : string) :
  LambdaFunction.validate_status s = true -> Main.validate_status s = true.
Proof.
  intros H. apply validate_status_exact in H.
  destruct H as [->|[->|[->| ->]]]; reflexivity.
Qed.

Lemma stricter_room_id (s : string) :
  LambdaFunction.validate_room_id s = true -> Main.validate_room_id s = true.
Proof.
  intros H. apply validate_room_id_exact in H.
  destruct H as (a & b & c & -> & _).
  apply main_validate_room_id_exact. reflexivity.
Qed.

Lemma stricter_timestamp (fromisoformat : string -> bool) (s : string) :
  LambdaFunction.validate_timestamp_with fromisoformat s = true ->
  Main.validate_timestamp_with fromisoformat s = true.
Proof.
  unfold LambdaFunction.validate_timestamp_with, Main.validate_timestamp_with.
  destruct (endswith "Z" s); simpl; [auto | discriminate].
Qed.

(** X13: every status, room identifier and timestamp that
    [lambda_function.py] accepts is accepted by [main.py], the timestamp
    whatever the parser does. *)
Theorem main_accepts_what_lambda_function_accepts
    (fromisoformat : string -> bool) (s : string) :
  implb (LambdaFunction.validate_status s) (Main.validate_status s) = true
  /\ implb (LambdaFunction.validate_room_id s) (Main.validate_room_id s)
     = true
  /\ implb (LambdaFunction.validate_timestamp_with fromisoformat s)
       (Main.validate_timestamp_with fromisoformat s) = true.
Proof.
  repeat split.
  - destruct (LambdaFunction.validate_status s) eqn:E; [|reflexivity].
    simpl. apply stricter_status, E.
  - destruct (LambdaFunction.validate_room_id s) eqn:E; [|reflexivity].
    simpl. apply stricter_room_id, E.
  - destruct (LambdaFunction.validate_timestamp_with fromisoformat s) eqn:E;
      [|reflexivity].
    simpl. apply stricter_timestamp, E.
Qed.

(** X14: every room identifier that [lambda_function.py] accepts is also a
    valid device identifier: [validate_device_id] does not tell a room
    from a device. *)
Theorem valid_room_id_is_a_valid_device_id (s : string) :
  LambdaFunction.validate_room_id s = true -> validate_device_id s = true.
Proof.
  intros H. apply validate_room_id_exact in H.
  destruct H as (a & b & c & -> & Da & Db & Dc & Hpos).
  apply (validate_device_id_of_digits "room"
           (String a (String b (String c EmptyString))));
    try discriminate; try reflexivity.
  - simpl. rewrite Da, Db, Dc. reflexivity.
  - unfold decimal_value. simpl. lia.
Qed.

Lemma valid_room_id_is_a_valid_device_id_witness :
  LambdaFunction.validate_room_id "room_042" = true
  /\ validate_device_id "room_042" = true.
Proof.
  split; [reflexivity|].
  apply (valid_room_id_is_a_valid_device_id "room_042"). reflexivity.
Defined.

Lemma endswith_not_empty (c : ascii) (s : string) :
  endswith c s = true -> s <> EmptyString.
Proof. intros H ->. discriminate. Qed.

(** X15: a timestamp that [lambda_function.py] has validated is never
    taken for an absent bound by the query functions: it is not empty, so
    its truth value is true. *)
Theorem validated_timestamp_is_a_bound (fromisoformat : string -> bool)
    (s : string) :
  LambdaFunction.validate_timestamp_with fromisoformat s = true ->
  truthy (Some s) = true.
Proof.
  intros H. unfold LambdaFunction.validate_timestamp_with in H.
  destruct (endswith "Z" s) eqn:E; [|discriminate].
  apply endswith_not_empty in E. simpl.
  destruct s; [congruence | reflexivity].
Qed.

Lemma validated_timestamp_is_a_bound_witness :
  LambdaFunction.validate_timestamp_with Datetime.fromisoformat
    "2025-08-01T00:00:00Z" = true
  /\ truthy (Some "2025-08-01T00:00:00Z") = true.
Proof.
  split; [reflexivity|].
  apply (validated_timestamp_is_a_bound Datetime.fromisoformat
           "2025-08-01T00:00:00Z").
  reflexivity.
Defined.

(** ** Validation in the handlers *)

Lemma validate_params_eq (params : list (string * option string))
    (validators : list (string * (string -> bool))) :
  validate_params params validators
  = (match spec_errors validators params with [] => true | _ => false end,
     spec_errors validators params).
Proof.
  unfold validate_params. rewrite validate_params_errors_from. simpl.
  destruct (spec_errors validators params); reflexivity.
Qed.

Lemma spec_errors_weaker (params : list (string * option string))
    (weak strict : list (string * (string -> bool))) :
  (forall name f,
      get name weak = Some f ->
      exists f', get name strict = Some f'
                 /\ forall x, f' x = true -> f x = true) ->
  spec_errors strict params = [] -> spec_errors weak params = [].
Proof.
  intros Hrel. unfold spec_errors.
  induction params as [|[name v] params IH]; simpl; [reflexivity|].
  intros H. apply app_eq_nil in H as [H1 H2].
  rewrite (IH H2), app_nil_r. unfold spec_error in *. simpl in *.
  destruct v as [x|]; [|reflexivity].
  destruct (get name weak) as [f|] eqn:Ew; [|reflexivity].
  destruct (Hrel name f Ew) as (f' & Es & Himp). rewrite Es in H1.
  destruct (f' x) eqn:E'; [|discriminate].
  rewrite (Himp x E'). reflexivity.
Qed.

(** Stricter validators refuse whatever weaker ones refuse. *)
Lemma validate_params_weaker (params : list (string * option string))
    (weak strict : list (string * (string -> bool))) :
  (forall name f,
      get name weak = Some f ->
      exists f', get name strict = Some f'
                 /\ forall x, f' x = true -> f x = true) ->
  fst (validate_params params strict) = true ->
  fst (validate_params params weak) = true.
Proof.
  intros Hrel. rewrite !validate_params_eq. simpl.
  destruct (spec_errors strict params) eqn:Es; [|discriminate].
  rewrite (spec_errors_weaker params weak strict Hrel Es). reflexivity.
Qed.

Ltac weaker_validators :=
  let name := fresh "name" in
  let f := fresh "f" in
  let E := fresh "E" in
  intros name f; cbn [get];
  repeat match goal with
    | |- context [String.eqb ?k name] => destruct (String.eqb k name)
    end;
  intros E; try discriminate E; injection E as <-;
  eexists; (split; [reflexivity | auto]).

(** Both handlers run the same two validations, the second with stricter
    validators; a refusal of the first is a refusal of the second. *)
Ltac compare_validations :=
  repeat match goal with
    | H : context [validate_params ?p ?V]
      |- context [validate_params ?p ?V'] =>
        let M := fresh "M" in
        assert (M : fst (validate_params p V') = true ->
                    fst (validate_params p V) = true)
          by (apply validate_params_weaker; weaker_validators);
        destruct (validate_params p V') as [[|] ?];
        [ try (destruct (validate_params p V) as [? ?]);
          cbn [fst] in M; try rewrite (M eq_refl) in *; cbn [negb] in *;
          clear M
        | cbn [negb]; reflexivity ]
    end.

Section Stricter.

Variables weak_room_id weak_timestamp weak_status : string -> bool.
Variables room_id timestamp status : string -> bool.
Hypothesis stricter_room :
  forall x, room_id x = true -> weak_room_id x = true.
Hypothesis stricter_time :
  forall x, timestamp x = true -> weak_timestamp x = true.
Hypothesis stricter_stat :
  forall x, status x = true -> weak_status x = true.

Lemma handle_device_detail_refuses_more :
  refuses_more (Shared.handle_device_detail weak_timestamp weak_status)
    (Shared.handle_device_detail timestamp status).
Proof.
  intros event table H. unfold Shared.handle_device_detail in *.
  cbv zeta in *. compare_validations. exact H.
Qed.

Lemma handle_room_detail_refuses_more :
  refuses_more (Shared.handle_room_detail weak_room_id weak_timestamp)
    (Shared.handle_room_detail room_id timestamp).
Proof.
  intros event table H. unfold Shared.handle_room_detail in *.
  cbv zeta in *. compare_validations. exact H.
Qed.

Lemma handle_room_devices_refuses_more :
  refuses_more (Shared.handle_room_devices weak_room_id)
    (Shared.handle_room_devices room_id).
Proof.
  intros event table H. unfold Shared.handle_room_devices in *.
  cbv zeta in *. compare_validations. exact H.
Qed.

Lemma handle_room_device_detail_refuses_more :
  refuses_more
    (Shared.handle_room_device_detail weak_room_id weak_timestamp weak_status)
    (Shared.handle_room_device_detail room_id timestamp status).
Proof.
  intros event table H. unfold Shared.handle_room_device_detail in *.
  cbv zeta in *. compare_validations. exact H.
Qed.

End Stricter.

Lemma get_route_found (key : string * string)
    (routes : list ((string * string) * route_handler)) (h : route_handler) :
  Shared.get_route key routes = Some h -> In (key, h) routes.
Proof.
  destruct key as [km kp].
  induction routes as [|[[m p] h'] routes IH]; simpl; [discriminate|].
  destruct (String.eqb m km) eqn:Em, (String.eqb p kp) eqn:Ep; simpl;
    try (intros H; right; exact (IH H)).
  apply String.eqb_eq in Em, Ep. subst. intros [= ->]. left. reflexivity.
Qed.

Lemma refuses_more_refl (h : route_handler) : refuses_more h h.
Proof. intros event table H. exact H. Qed.

(** Each route of [main.py] is a route of [lambda_function.py], bound to
    the handler of the same text with the stricter validators. *)
Lemma main_routes_in_lambda_function (key : string * string)
    (h : route_handler) :
  In (key, h) Main.ROUTE_HANDLERS ->
  exists h',
    Shared.get_route key LambdaFunction.ROUTE_HANDLERS = Some h'
    /\ refuses_more h h'.
Proof.
  unfold Main.ROUTE_HANDLERS. simpl. intros H.
  repeat (destruct H as [H|H];
          [injection H as <- <-; eexists; split; [reflexivity|] |]);
    try contradiction;
    try apply refuses_more_refl.
  all: first [ apply handle_device_detail_refuses_more
             | apply handle_room_detail_refuses_more
             | apply handle_room_devices_refuses_more
             | apply handle_room_device_detail_refuses_more ];
    first [ exact stricter_status
          | exact stricter_room_id
          | exact (stricter_timestamp Datetime.fromisoformat) ].
Qed.

(** X16: a request that [main.py] answers with 400 is answered with 400
    by [lambda_function.py] as well, on the same table: the second file
    validates at least as much as the first on every route they share. *)
Theorem lambda_function_refuses_what_main_refuses (event : Event)
    (table : Table) :
  statusCode (Main.lambda_handler event table) = 400 ->
  statusCode (LambdaFunction.handler event table) = 400.
Proof.
  unfold Main.lambda_handler, LambdaFunction.handler.
  pose proof (dispatch_cases Main.ROUTE_HANDLERS event table) as Hm.
  pose proof (dispatch_cases LambdaFunction.ROUTE_HANDLERS event table) as Hl.
  destruct (Shared.get_route (route_key event) Main.ROUTE_HANDLERS)
    as [h|] eqn:Hr; rewrite Hm; [|discriminate].
  apply get_route_found in Hr.
  destruct (main_routes_in_lambda_function _ _ Hr) as (h' & Hr' & Hmore).
  rewrite Hr' in Hl. rewrite Hl. apply Hmore.
Qed.

Lemma lambda_function_refuses_what_main_refuses_witness :
  statusCode
    (Main.lambda_handler
       (mkEvent (Some "GET") (Some "/rooms/{room_id}")
          (Some [("room_id", Some "ROOM_001")])
          (Some [("start_time", Some "yesterday")])) sample_table) = 400
  /\ statusCode
       (LambdaFunction.handler
          (mkEvent (Some "GET") (Some "/rooms/{room_id}")
             (Some [("room_id", Some "ROOM_001")])
             (Some [("start_time", Some "yesterday")])) sample_table) = 400.
Proof.
  split; [reflexivity|].
  apply (lambda_function_refuses_what_main_refuses
           (mkEvent (Some "GET") (Some "/rooms/{room_id}")
              (Some [("room_id", Some "ROOM_001")])
              (Some [("start_time", Some "yesterday")])) sample_table).
  reflexivity.
Defined.

(** ** Parameters that a handler reads, and those it does not *)

Lemma get_skips_other_key {A : Type} (key other : string) (v : A)
    (d1 d2 : list (string * A)) :
  String.eqb other key = false ->
  get key (d1 ++ (other, v) :: d2) = get key (d1 ++ d2).
Proof.
  intros H. induction d1 as [|[k w] d1 IH]; simpl.
  - rewrite H. reflexivity.
  - destruct (String.eqb k key); [reflexivity | exact IH].
Qed.

Lemma spec_errors_skip_unregistered
    (validators : list (string * (string -> bool))) (name : string)
    (v : option string) (q1 q2 : list (string * option string)) :
  get name validators = None ->
  spec_errors validators
    (filter (fun kv => is_not_None (snd kv)) (q1 ++ (name, v) :: q2))
  = spec_errors validators
      (filter (fun kv => is_not_None (snd kv)) (q1 ++ q2)).
Proof.
  intros H. unfold spec_errors. rewrite !filter_app, !flat_map_app.
  f_equal. simpl. destruct v as [x|]; simpl; [|reflexivity].
  unfold spec_error at 1. simpl. rewrite H. reflexivity.
Qed.

Lemma handle_room_detail_ignores_status
    (validate_room_id validate_timestamp : string -> bool)
    (method path : option string)
    (path_params : option (list (string * option string)))
    (q1 q2 : list (string * option string)) (v : option string)
    (table : Table) :
  Shared.handle_room_detail validate_room_id validate_timestamp
    (mkEvent method path path_params (Some (q1 ++ ("status", v) :: q2)%list)) table
  = Shared.handle_room_detail validate_room_id validate_timestamp
      (mkEvent method path path_params (Some (q1 ++ q2)%list)) table.
Proof.
  unfold Shared.handle_room_detail, extract_query_params, get_opt.
  cbn [queryStringParameters pathParameters]. cbv zeta.
  rewrite !(get_skips_other_key _ "status") by reflexivity.
  rewrite !(validate_params_eq (filter _ _)).
  rewrite spec_errors_skip_unregistered by reflexivity.
  reflexivity.
Qed.

(** X17: the route of a room takes no status filter: a [status] parameter
    in the query, valid or not and wherever it stands, changes nothing in
    the response of either router. *)
Theorem room_route_ignores_status (f : source_file)
    (path_params : option (list (string * option string)))
    (q1 q2 : list (string * option string)) (v : option string)
    (table : Table) :
  entry_point f
    (room_request path_params (Some (q1 ++ ("status", v) :: q2)%list)) table
  = entry_point f (room_request path_params (Some (q1 ++ q2)%list)) table.
Proof.
  destruct f; apply handle_room_detail_ignores_status.
Qed.

Lemma flat_map_not_empty {A B : Type} (f : A -> list B) (l : list A) (x : A) :
  In x l -> f x <> [] -> flat_map f l <> [].
Proof.
  induction l as [|y l IH]; simpl; [contradiction|].
  intros [->|Hin] Hx E; apply app_eq_nil in E as [E1 E2]; auto.
  apply (IH Hin Hx E2).
Qed.

Lemma handle_device_detail_refuses_invalid_filter
    (validate_timestamp validate_status : string -> bool) (event : Event)
    (table : Table) (name value : string) (validator : string -> bool) :
  get name [("start_time", validate_timestamp);
            ("end_time", validate_timestamp);
            ("status", validate_status)] = Some validator ->
  In (name, Some value) (extract_query_params event) ->
  validator value = false ->
  statusCode
    (Shared.handle_device_detail validate_timestamp validate_status event
       table) = 400.
Proof.
  intros Hv Hin Hbad. unfold Shared.handle_device_detail. cbv zeta.
  destruct (validate_params [("device_id", _)] _) as [[|] errors];
    cbn [negb]; [|reflexivity].
  rewrite validate_params_eq.
  destruct (spec_errors _ _) eqn:E; [|reflexivity].
  exfalso. revert E. unfold spec_errors.
  apply (flat_map_not_empty _ _ (name, Some value)).
  - apply filter_In. split; [exact Hin | reflexivity].
  - unfold spec_error. cbn [fst snd]. rewrite Hv, Hbad. discriminate.
Qed.

(** X18: on the route of a device, an optional filter that is present and
    that its validator refuses is never dropped: whatever else the request
    holds, either router answers 400. *)
Theorem invalid_filter_is_refused (f : source_file)
    (path_params : option (list (string * option string)))
    (query_params : list (string * option string)) (table : Table)
    (name value : string) (validator : string -> bool) :
  filter_validator f name = Some validator ->
  In (name, Some value) query_params ->
  validator value = false ->
  statusCode
    (entry_point f (device_request path_params (Some query_params)) table)
  = 400.
Proof.
  intros Hv Hin Hbad.
  destruct f;
    apply (handle_device_detail_refuses_invalid_filter _ _ _ _ name value
             validator); assumption.
Qed.

Lemma invalid_filter_is_refused_witness :
  filter_validator lambda_function_py "status"
  = Some LambdaFunction.validate_status
  /\ In ("status", Some "SENSOR_ERROR")
       [("start_time", Some "2025-08-01T00:00:00Z");
        ("status", Some "SENSOR_ERROR")]
  /\ LambdaFunction.validate_status "SENSOR_ERROR" = false
  /\ statusCode
       (entry_point lambda_function_py
          (device_request (Some [("device_id", Some "sensor_01")])
             (Some [("start_time", Some "2025-08-01T00:00:00Z");
                    ("status", Some "SENSOR_ERROR")])) sample_table) = 400.
Proof.
  split; [reflexivity|]. split; [simpl; tauto|]. split; [reflexivity|].
  apply (invalid_filter_is_refused lambda_function_py
           (Some [("device_id", Some "sensor_01")])
           [("start_time", Some "2025-08-01T00:00:00Z");
            ("status", Some "SENSOR_ERROR")]
           sample_table "status" "SENSOR_ERROR"
           LambdaFunction.validate_status).
  - reflexivity.
  - simpl. tauto.
  - reflexivity.
Defined.

Lemma handle_device_detail_refuses_device_id
    (validate_timestamp validate_status : string -> bool) (event : Event)
    (table : Table) (device_id : string) :
  get_opt "device_id" (extract_path_params event) = Some device_id ->
  validate_device_id device_id = false ->
  Shared.handle_device_detail validate_timestamp validate_status event table
  = create_error_response 400 "Validation failed"
      (Some [("Invalid device_id: " ++ device_id)%string]).
Proof.
  intros Hd Hbad. unfold Shared.handle_device_detail. cbv zeta.
  rewrite Hd. unfold validate_params at 1. cbn [fold_left get fst snd].
  rewrite String.eqb_refl, Hbad. reflexivity.
Qed.

(** X19: on the route of a device, a device identifier that
    [validate_device_id] refuses gives the response 400 "Validation
    failed" with the single detail "Invalid device_id: <value>", whatever
    the query parameters and the table: the path is validated first and
    nothing else is looked at. *)
Theorem invalid_device_id_is_refused_first (f : source_file)
    (path_params : list (string * option string))
    (query_params : option (list (string * option string))) (table : Table)
    (device_id : string) :
  get_opt "device_id" path_params = Some device_id ->
  validate_device_id device_id = false ->
  entry_point f (device_request (Some path_params) query_params) table
  = create_error_response 400 "Validation failed"
      (Some [("Invalid device_id: " ++ device_id)%string]).
Proof.
  intros Hd Hbad.
  destruct f; apply handle_device_detail_refuses_device_id; assumption.
Qed.

Lemma invalid_device_id_is_refused_first_witness :
  get_opt "device_id" [("device_id", Some "sensor_00")] = Some "sensor_00"
  /\ validate_device_id "sensor_00" = false
  /\ entry_point main_py
       (device_request (Some [("device_id", Some "sensor_00")])
          (Some [("status", Some "broken")])) failing_table
     = create_error_response 400 "Validation failed"
         (Some ["Invalid device_id: sensor_00"]).
Proof.
  split; [reflexivity|]. split; [reflexivity|].
  apply (invalid_device_id_is_refused_first main_py
           [("device_id", Some "sensor_00")]
           (Some [("status", Some "broken")]) failing_table "sensor_00");
    reflexivity.
Defined.




(** ** What the by-device and by-room queries return *)

Ltac option_cases x :=
  destruct x as [x|]; cbn [truthy];
  [ destruct (String.eqb_spec x EmptyString) |].

Ltac meaning_of_conjunction :=
  intros;
  repeat match goal with
    | H : _ /\ _ |- _ => destruct H
    | H : andb _ _ = true |- _ => apply andb_prop in H
    | H : String.eqb _ _ = true |- _ => apply String.eqb_eq in H
    end;
  repeat split; try assumption.

Ltac meaning :=
  cbn [truthy negb andb KeyConditionExpression FilterExpression passes];
  simpl holds;
  unfold within, status_is, lex_le;
  (split;
   [ meaning_of_conjunction;
     first
       [ let E := fresh "E" in
         intros ? E ?; inversion E; subst; solve [assumption | congruence]
       | match goal with
         | E : Some _ = Some _ |- _ =>
             inversion E; subst; solve [assumption | congruence]
         | E : None = Some _ |- _ => discriminate E
         end ]
   | meaning_of_conjunction;
     repeat (apply andb_true_intro; split);
     solve [ assumption | reflexivity | apply String.eqb_eq; assumption
           | eauto ] ]).

Lemma device_query_key_meaning (device_id : string)
    (start_time end_time status : option string) (r : TelemetryRecord) :
  holds
    (KeyConditionExpression
       (query_device_by_id_request (Some device_id) start_time end_time
          status)) r = true
  <-> rec_device_id r = device_id
      /\ within start_time end_time (rec_timestamp r).
Proof.
  unfold query_device_by_id_request.
  option_cases start_time; option_cases end_time; subst; meaning.
Qed.

Lemma device_query_filter_meaning (device_id start_time end_time
    status : option string) (r : TelemetryRecord) :
  passes
    (FilterExpression
       (query_device_by_id_request device_id start_time end_time status)) r
  = true
  <-> status_is status r.
Proof.
  unfold query_device_by_id_request, status_is.
  cbn [FilterExpression]. option_cases status; cbn [negb passes].
  - split; [|reflexivity]. intros _ st E Hne. congruence.
  - simpl. rewrite String.eqb_eq. split.
    + intros H st E _. congruence.
    + intros H. apply (H status eq_refl). assumption.
  - split; [|reflexivity]. intros _ st E. discriminate E.
Qed.

Lemma room_query_key_meaning (room_id : string)
    (start_time end_time : option string) (r : TelemetryRecord) :
  holds
    (KeyConditionExpression
       (query_room_by_id_request (Some room_id) start_time end_time)) r = true
  <-> rec_room_id r = room_id /\ within start_time end_time (rec_timestamp r).
Proof.
  unfold query_room_by_id_request.
  option_cases start_time; option_cases end_time; subst; meaning.
Qed.

Lemma by_device_key_condition_ok (device_id : string)
    (start_time end_time status : option string) :
  key_condition_ok "device_id" "timestamp"
    (KeyConditionExpression
       (query_device_by_id_request (Some device_id) start_time end_time
          status)) = true.
Proof.
  unfold query_device_by_id_request.
  bounds_cases start_time end_time status; reflexivity.
Qed.

Lemma by_room_key_condition_ok (room_id : string)
    (start_time end_time : option string) :
  key_condition_ok "room_id" "timestamp"
    (KeyConditionExpression
       (query_room_by_id_request (Some room_id) start_time end_time)) = true.
Proof.
  unfold query_room_by_id_request.
  destruct start_time as [s|], end_time as [e|]; cbn [truthy];
    repeat match goal with
      | |- context [String.eqb ?x ""] => destruct (String.eqb x "")
      end; reflexivity.
Qed.

(** X21: on a table that answers, [query_device_by_id] returns the full
    items of exactly the records of the device whose timestamp lies within
    the bounds given, both inclusive, and whose status is the one asked
    for when one is given; an empty bound or status counts as not
    given. *)
Theorem query_device_by_id_selects (table : Table) (device_id : string)
    (start_time end_time status : option string) :
  outage table = None ->
  exists records,
    query_device_by_id table (Some device_id) start_time end_time status
    = Ok (map full_item records)
    /\ forall r,
        In r records
        <-> In r (rows table) /\ rec_device_id r = device_id
            /\ within start_time end_time (rec_timestamp r)
            /\ status_is status r.
Proof.
  intros Ho. unfold query_device_by_id.
  rewrite (query_returns table
             (query_device_by_id_request (Some device_id) start_time end_time
                status)
             "device_id" "timestamp" Ho eq_refl
             (by_device_key_condition_ok _ _ _ _)).
  eexists. split; [reflexivity|]. intros r.
  rewrite selected_records, device_query_key_meaning,
    device_query_filter_meaning.
  tauto.
Qed.

Lemma query_device_by_id_selects_witness :
  outage sample_table = None
  /\ exists records,
      query_device_by_id sample_table (Some "sensor_01")
        (Some "2025-08-01T00:00:00Z") (Some "2025-08-01T00:02:00Z")
        (Some "ok")
      = Ok (map full_item records).
Proof.
  split; [reflexivity|].
  destruct (query_device_by_id_selects sample_table "sensor_01"
              (Some "2025-08-01T00:00:00Z") (Some "2025-08-01T00:02:00Z")
              (Some "ok") eq_refl) as (records & H & _).
  exists records. exact H.
Defined.

(** X22: on a table that answers, [query_room_by_id] returns the full
    items of exactly the records of the room whose timestamp lies within
    the bounds given, both inclusive, of every device and every status. *)
Theorem query_room_by_id_selects (table : Table) (room_id : string)
    (start_time end_time : option string) :
  outage table = None ->
  exists records,
    query_room_by_id table (Some room_id) start_time end_time
    = Ok (map full_item records)
    /\ forall r,
        In r records
        <-> In r (rows table) /\ rec_room_id r = room_id
            /\ within start_time end_time (rec_timestamp r).
Proof.
  intros Ho. unfold query_room_by_id.
  rewrite (query_returns table
             (query_room_by_id_request (Some room_id) start_time end_time)
             "room_id" "timestamp" Ho eq_refl
             (by_room_key_condition_ok _ _ _)).
  eexists. split; [reflexivity|]. intros r.
  rewrite selected_records, room_query_key_meaning.
  simpl. tauto.
Qed.

Lemma query_room_by_id_selects_witness :
  outage sample_table = None
  /\ exists records,
      query_room_by_id sample_table (Some "room_001") None
        (Some "2025-08-01T00:01:00Z")
      = Ok (map full_item records).
Proof.
  split; [reflexivity|].
  destruct (query_room_by_id_selects sample_table "room_001" None
              (Some "2025-08-01T00:01:00Z") eq_refl) as (records & H & _).
  exists records. exact H.
Defined.

(** ** Custom headers *)

Lemma get_set_key {A : Type} (key k : string) (v : A) (d : list (string * A)) :
  get key (set_key k v d) = if String.eqb k key then Some v else get key d.
Proof.
  induction d as [|[a w] d IH]; simpl; [reflexivity|].
  destruct (String.eqb_spec a k) as [->|Hak]; simpl.
  - destruct (String.eqb k key); reflexivity.
  - rewrite IH.
    destruct (String.eqb_spec a key) as [->|Hakey]; [|reflexivity].
    destruct (String.eqb_spec k key) as [->|_]; [congruence | reflexivity].
Qed.

Lemma get_absent {A : Type} (key : string) (d : list (string * A)) :
  ~ In key (map fst d) -> get key d = None.
Proof.
  induction d as [|[a w] d IH]; simpl; [reflexivity|].
  intros H. destruct (String.eqb_spec a key) as [->|_]; [tauto|].
  apply IH. tauto.
Qed.

(** [d.update(other)]: the entries of [other] win, the rest of [d] stays. *)
Lemma get_update {A : Type} (key : string) (other : list (string * A)) :
  NoDup (map fst other) ->
  forall d,
    get key (update d other)
    = match get key other with
      | Some v => Some v
      | None => get key d
      end.
Proof.
  unfold update.
  induction other as [|[k v] other IH]; simpl; intros Hnd d; [reflexivity|].
  inversion Hnd as [|? ? Hk Hnd']; subst.
  rewrite (IH Hnd'), get_set_key.
  destruct (String.eqb_spec k key) as [->|_]; [|reflexivity].
  rewrite (get_absent key other Hk). reflexivity.
Qed.

(** X23: the headers given to [create_response] are merged into the
    default ones: a header of the caller replaces the default of the same
    name, and every other default header is kept. *)
Theorem create_response_merges_headers (status_code : Z) (content : value)
    (custom : list (string * string)) (key : string) :
  NoDup (map fst custom) ->
  get key (headers (create_response status_code content (Some custom)))
  = match get key custom with
    | Some v => Some v
    | None => get key default_headers
    end.
Proof.
  intros Hnd. unfold create_response. cbn [headers].
  destruct custom as [|h hs]; [reflexivity|].
  apply (get_update key (h :: hs) Hnd).
Qed.

Lemma create_response_merges_headers_witness :
  NoDup (map fst [("Content-Type", "text/plain"); ("X-Request-Id", "42")])
  /\ get "Content-Type"
       (headers
          (create_response 200 VNone
             (Some [("Content-Type", "text/plain"); ("X-Request-Id", "42")])))
     = Some "text/plain".
Proof.
  split.
  - repeat constructor; simpl; intuition discriminate.
  - apply (create_response_merges_headers 200 VNone
             [("Content-Type", "text/plain"); ("X-Request-Id", "42")]
             "Content-Type").
    repeat constructor; simpl; intuition discriminate.
Defined.

(** ** A device and a room that never met *)

Lemma empty_selection (key post : TelemetryRecord -> bool)
    (records : list TelemetryRecord) :
  (forall r, In r records -> key r = true -> post r = true -> False) ->
  filter post (sort_by by_timestamp (filter key records)) = [].
Proof.
  intros H.
  destruct (filter post (sort_by by_timestamp (filter key records)))
    as [|r l] eqn:E; [reflexivity|].
  exfalso.
  assert (Hin : In r (filter post
                        (sort_by by_timestamp (filter key records))))
    by (rewrite E; left; reflexivity).
  apply selected_records in Hin as (Hr & Hk & Hp). eauto.
Qed.

Lemma no_common_record_by_device (table : Table) (device_id room_id : string) :
  outage table = None ->
  (forall r, In r (rows table) ->
             rec_device_id r = device_id -> rec_room_id r = room_id -> False) ->
  LambdaFunction.query_device_in_specific_room table (Some device_id)
    (Some room_id) None None None = Ok [].
Proof.
  intros Ho Hnone. unfold LambdaFunction.query_device_in_specific_room.
  rewrite (query_returns table
             (LambdaFunction.query_device_in_specific_room_request
                (Some device_id) (Some room_id) None None None)
             "device_id" "timestamp" Ho eq_refl eq_refl).
  rewrite empty_selection; [reflexivity|].
  intros r Hr Hk Hp. simpl in Hk, Hp.
  apply String.eqb_eq in Hk, Hp. eauto.
Qed.

Lemma no_common_record_by_room (table : Table) (device_id room_id : string) :
  outage table = None ->
  (forall r, In r (rows table) ->
             rec_device_id r = device_id -> rec_room_id r = room_id -> False) ->
  query_room_device_specific table (Some room_id) (Some device_id) None None
    None = Ok [].
Proof.
  intros Ho Hnone. unfold query_room_device_specific.
  rewrite (query_returns table
             (query_room_device_specific_request (Some room_id)
                (Some device_id) None None None)
             "room_id" "timestamp" Ho eq_refl eq_refl).
  rewrite empty_selection; [reflexivity|].
  intros r Hr Hk Hp. simpl in Hk, Hp.
  apply String.eqb_eq in Hk, Hp. eauto.
Qed.

Lemma validate_params_accepts_two (n1 n2 v1 v2 : string)
    (f1 f2 : string -> bool) :
  String.eqb n1 n2 = false -> f1 v1 = true -> f2 v2 = true ->
  validate_params [(n1, Some v1); (n2, Some v2)] [(n1, f1); (n2, f2)]
  = (true, []).
Proof.
  intros Hn H1 H2. rewrite validate_params_eq.
  unfold spec_errors, spec_error. simpl.
  rewrite !String.eqb_refl, Hn, H1, H2. reflexivity.
Qed.

(** X24: in [lambda_function.py], asking for a valid device in a valid
    room where the device has no reading is no error: on a table that
    answers, both intersection routes give 200 with an empty [data] and a
    [count] of 0. *)
Theorem device_absent_from_room_gives_empty_success (table : Table)
    (device_id room_id : string) :
  outage table = None ->
  validate_device_id device_id = true ->
  LambdaFunction.validate_room_id room_id = true ->
  (forall r, In r (rows table) ->
             rec_device_id r = device_id -> rec_room_id r = room_id -> False) ->
  LambdaFunction.handler
    (mkEvent (Some "GET") (Some "/devices/{device_id}/{room_id}")
       (Some [("device_id", Some device_id); ("room_id", Some room_id)]) None)
    table
  = create_response 200
      (VDict [("device_id", VStr device_id); ("room_id", VStr room_id);
              ("data", VList []); ("count", VInt 0)]) None
  /\ LambdaFunction.handler
       (mkEvent (Some "GET") (Some "/rooms/{room_id}/{device_id}")
          (Some [("room_id", Some room_id); ("device_id", Some device_id)])
          None) table
     = create_response 200
         (VDict [("room_id", VStr room_id); ("device_id", VStr device_id);
                 ("data", VList []); ("count", VInt 0)]) None.
Proof.
  intros Ho Hd Hr Hnone. split.
  - change (LambdaFunction.handle_device_room_detail
              (mkEvent (Some "GET") (Some "/devices/{device_id}/{room_id}")
                 (Some [("device_id", Some device_id);
                        ("room_id", Some room_id)]) None) table = 
            create_response 200
              (VDict [("device_id", VStr device_id);
                      ("room_id", VStr room_id);
                      ("data", VList []); ("count", VInt 0)]) None).
    unfold LambdaFunction.handle_device_room_detail. cbv zeta.
    cbn [extract_path_params extract_query_params pathParameters
           queryStringParameters get_opt get String.eqb Ascii.eqb Bool.eqb
           filter].
    rewrite (validate_params_accepts_two "device_id" "room_id" _ _ _ _
               eq_refl Hd Hr).
    cbn [negb]. rewrite validate_params_eq. cbn [spec_errors flat_map negb].
    rewrite (no_common_record_by_device table device_id room_id Ho Hnone).
    reflexivity.
  - change (Shared.handle_room_device_detail LambdaFunction.validate_room_id
              LambdaFunction.validate_timestamp LambdaFunction.validate_status
              (mkEvent (Some "GET") (Some "/rooms/{room_id}/{device_id}")
                 (Some [("room_id", Some room_id);
                        ("device_id", Some device_id)]) None) table = 
            create_response 200
              (VDict [("room_id", VStr room_id);
                      ("device_id", VStr device_id);
                      ("data", VList []); ("count", VInt 0)]) None).
    unfold Shared.handle_room_device_detail. cbv zeta.
    cbn [extract_path_params extract_query_params pathParameters
           queryStringParameters get_opt get String.eqb Ascii.eqb Bool.eqb
           filter].
    rewrite (validate_params_accepts_two "room_id" "device_id" _ _ _ _
               eq_refl Hr Hd).
    cbn [negb]. rewrite validate_params_eq. cbn [spec_errors flat_map negb].
    rewrite (no_common_record_by_room table device_id room_id Ho Hnone).
    reflexivity.
Qed.

Lemma device_absent_from_room_gives_empty_success_witness :
  outage sample_table = None
  /\ validate_device_id "sensor_02" = true
  /\ LambdaFunction.validate_room_id "room_002" = true
  /\ statusCode
       (LambdaFunction.handler
          (mkEvent (Some "GET") (Some "/devices/{device_id}/{room_id}")
             (Some [("device_id", Some "sensor_02");
                    ("room_id", Some "room_002")]) None) sample_table) = 200.
Proof.
  split; [reflexivity|]. split; [reflexivity|]. split; [reflexivity|].
  destruct (device_absent_from_room_gives_empty_success sample_table
              "sensor_02" "room_002" eq_refl eq_refl eq_refl) as [H _].
  - intros r Hr Hd Hm. simpl in Hr.
    repeat (destruct Hr as [<-|Hr]; [discriminate|]). contradiction.
  - rewrite H. reflexivity.
Defined.
